(** * Resume screening agent: scoring and ranking pipeline

    A shallow embedding of the scoring core of the resume screening agent
    ([resume_processor.py], [jd_matcher.py], [ranking_engine.py]) and the
    properties of its specification.

    Modelling conventions.
    - A Python [str] is a [string]; the model covers ASCII text: the
      character classes ([isspace], [\d], [\w]) and [lower] are those of
      Python restricted to code points below 128, and a byte above 127 is
      an opaque character (part of a UTF-8 encoded code point).
    - A Python [int] is a [Z]. A Python [float] that is a number is an
      exact rational [Q] (no rounding error); the floats of the ranking
      can also be an infinity or NaN, and an int too large for a float
      raises. The cosine similarity needs a square root and is stated
      over [R], with the special results of a float division by zero
      made explicit.
    - A Python exception is a value of [exn]; code that can raise returns
      an [outcome]. *)

From Stdlib Require Import List String Ascii Bool Arith NArith ZArith Lia.
From Stdlib Require Import QArith Qminmax Qround Reals Psatz DecimalString.
From Stdlib Require Import Permutation Sorted.
Import ListNotations.

Close Scope Q_scope.
Local Open Scope string_scope.
Local Open Scope list_scope.

(** ** Exceptions *)

Inductive exn : Type :=
| ValueError (msg : string)
| OverflowError (msg : string)
| AttributeError (msg : string)
| ExternalServiceError (msg : string).

Inductive outcome (A : Type) : Type :=
| Ok (a : A)
| Raise (e : exn).

Arguments Ok {A} a.
Arguments Raise {A} e.

Definition bind {A B : Type} (c : outcome A) (k : A -> outcome B) : outcome B :=
  match c with
  | Ok a => k a
  | Raise e => Raise e
  end.

Notation "x <- c ;; k" := (bind c (fun x => k))
  (at level 61, c at next level, right associativity).

Definition raises {A : Type} (c : outcome A) : bool :=
  match c with
  | Ok _ => false
  | Raise _ => true
  end.

(** ** Python string primitives *)

Module PyStr.

Definition code (c : ascii) : N := N_of_ascii c.

Definition between (lo hi : N) (c : ascii) : bool :=
  (lo <=? code c)%N && (code c <=? hi)%N.

(** [str.isspace] on one character: TAB..CR, FS..US and the space. *)
Definition is_space (c : ascii) : bool :=
  between 9 13 c || between 28 32 c.

Definition is_digit (c : ascii) : bool := between 48 57 c.

Definition is_upper (c : ascii) : bool := between 65 90 c.

Definition is_lower (c : ascii) : bool := between 97 122 c.

(** The class [\w]: letters, digits and the underscore. *)
Definition is_word (c : ascii) : bool :=
  is_upper c || is_lower c || is_digit c || (code c =? 95)%N.

Definition lower_char (c : ascii) : ascii :=
  if is_upper c then ascii_of_N (code c + 32) else c.

(** [s.lower()] *)
Fixpoint lower (s : string) : string :=
  match s with
  | EmptyString => EmptyString
  | String c s' => String (lower_char c) (lower s')
  end.

(** [s.startswith(p)] *)
Fixpoint startswith (s p : string) : bool :=
  match p, s with
  | EmptyString, _ => true
  | String a p', String b s' => Ascii.eqb a b && startswith s' p'
  | String _ _, EmptyString => false
  end.

(** [s.startswith((p1, p2, ...))] *)
Definition startswith_any (s : string) (ps : list string) : bool :=
  existsb (startswith s) ps.

(** [sub in s] *)
Fixpoint contains (sub s : string) : bool :=
  startswith s sub ||
  match s with
  | EmptyString => false
  | String _ s' => contains sub s'
  end.

Fixpoint lstrip (s : string) : string :=
  match s with
  | EmptyString => EmptyString
  | String c s' => if is_space c then lstrip s' else s
  end.

Fixpoint rstrip (s : string) : string :=
  match s with
  | EmptyString => EmptyString
  | String c s' =>
      match rstrip s' with
      | EmptyString => if is_space c then EmptyString else String c EmptyString
      | t => String c t
      end
  end.

(** [s.strip()] *)
Definition strip (s : string) : string := rstrip (lstrip s).

Definition newline : ascii := "010"%char.

(** [s.split('\n')]: never empty, one more piece than there are newlines. *)
Fixpoint split_lines (s : string) : list string :=
  match s with
  | EmptyString => [EmptyString]
  | String c s' =>
      if Ascii.eqb c newline then EmptyString :: split_lines s'
      else match split_lines s' with
           | l :: ls => String c l :: ls
           | [] => [String c EmptyString]
           end
  end.

Fixpoint drop (n : nat) (s : string) : string :=
  match n, s with
  | O, _ => s
  | S n', String _ s' => drop n' s'
  | S _, EmptyString => EmptyString
  end.

Fixpoint take (n : nat) (s : string) : string :=
  match n, s with
  | S n', String c s' => String c (take n' s')
  | _, _ => EmptyString
  end.

(** A UTF-8 continuation byte, 10xxxxxx. *)
Definition is_continuation (c : ascii) : bool := between 128 191 c.

Fixpoint drop_continuation (s : string) : string :=
  match s with
  | String c s' => if is_continuation c then drop_continuation s' else s
  | EmptyString => EmptyString
  end.

(** [s[1:]]: the string without its first character (one code point, that
    is one byte and the continuation bytes after it). *)
Definition tail (s : string) : string :=
  match s with
  | EmptyString => EmptyString
  | String _ s' => drop_continuation s'
  end.

(** [s.replace(old, new)] for a non-empty [old]: the occurrences of [old]
    are replaced from left to right, without overlap. [skip] counts the
    characters of an occurrence still to be passed over. *)
Fixpoint replace_from (old new s : string) (skip : nat) : string :=
  match s with
  | EmptyString => EmptyString
  | String c s' =>
      match skip with
      | S k => replace_from old new s' k
      | O =>
          if startswith s old
          then new ++ replace_from old new s' (String.length old - 1)
          else String c (replace_from old new s' 0)
      end
  end.

Definition replace (s old new : string) : string := replace_from old new s 0.

Definition digit_value (c : ascii) : Z := (Z.of_N (code c) - 48)%Z.

Definition all_digits (s : string) : bool :=
  forallb is_digit (list_ascii_of_string s).

(** The number that a string of decimal digits writes. *)
Definition int_of_digits (s : string) : Z :=
  fold_left (fun acc c => (10 * acc + digit_value c)%Z) (list_ascii_of_string s) 0%Z.

(** The most digits [int] converts (CPython's [sys.int_max_str_digits]). *)
Definition int_max_str_digits : nat := 4300.

(** [int(s)] for a string of decimal digits: [ValueError] for more digits
    than the limit. *)
Definition int (s : string) : outcome Z :=
  if (String.length s <=? int_max_str_digits)%nat then Ok (int_of_digits s)
  else Raise (ValueError "Exceeds the limit (4300 digits) for integer string conversion").

(** [sep.join(parts)] *)
Fixpoint join (sep : string) (parts : list string) : string :=
  match parts with
  | [] => EmptyString
  | [p] => p
  | p :: ps => p ++ sep ++ join sep ps
  end.

(** [lst.index(x)]: the position of the first element equal to [x];
    raises [ValueError] when there is none. *)
Fixpoint index_from (x : string) (l : list string) (i : nat) : outcome nat :=
  match l with
  | [] => Raise (ValueError (x ++ " is not in list"))
  | y :: l' => if String.eqb y x then Ok i else index_from x l' (S i)
  end.

Definition index (l : list string) (x : string) : outcome nat := index_from x l 0.

Definition upper_char (c : ascii) : ascii :=
  if is_lower c then ascii_of_N (code c - 32) else c.

(** [s.upper()] *)
Fixpoint upper (s : string) : string :=
  match s with
  | EmptyString => EmptyString
  | String c s' => String (upper_char c) (upper s')
  end.

(** The 256 characters. *)
Definition all_ascii : list ascii := map ascii_of_nat (seq 0 256).

End PyStr.

(** ** [os.path] (POSIX) *)

Module PyOs.

(** [s.rfind(c)] for a one-character [c], scanning from position [i]:
    the last position of [c], [last] when there is none. *)
Fixpoint rfind_from (c : ascii) (s : string) (i last : Z) : Z :=
  match s with
  | EmptyString => last
  | String a s' =>
      rfind_from c s' (i + 1)%Z (if Ascii.eqb a c then i else last)
  end.

Definition rfind (c : ascii) (s : string) : Z := rfind_from c s 0%Z (-1)%Z.

(** [s[i:j]] for [0 <= i]. *)
Definition slice (s : string) (i j : Z) : string :=
  PyStr.take (Z.to_nat (j - i)) (PyStr.drop (Z.to_nat i) s).

(** [os.path.splitext(p)]: the extension starts at the last dot of the
    last path component, unless that component has only dots before it. *)
Definition splitext (p : string) : string * string :=
  let sepIndex := rfind "/" p in
  let dotIndex := rfind "." p in
  if (sepIndex <? dotIndex)%Z &&
     existsb (fun c => negb (Ascii.eqb c "."))
       (list_ascii_of_string (slice p (sepIndex + 1)%Z dotIndex))
  then (PyStr.take (Z.to_nat dotIndex) p, PyStr.drop (Z.to_nat dotIndex) p)
  else (p, EmptyString).

End PyOs.

(** ** Regular expressions

    The patterns of the program are sequences of character classes, each
    with a quantifier; groups only delimit and the program reads the whole
    match or a group that is the whole match. Matching is that of Python's
    [re]: leftmost, and at each quantifier greedy with backtracking. *)

Module Re.

Inductive cls : Type :=
| Lit (c : ascii)
| Digit
| Space
| Word
| Union (a b : cls).

Inductive quant : Type := One | Opt | Star | Plus.

Definition regex : Type := list (cls * quant).

Fixpoint cls_mem (k : cls) (c : ascii) : bool :=
  match k with
  | Lit a => Ascii.eqb a c
  | Digit => PyStr.is_digit c
  | Space => PyStr.is_space c
  | Word => PyStr.is_word c
  | Union a b => cls_mem a c || cls_mem b c
  end.

(** The literal text [s] as a pattern. *)
Definition lit (s : string) : regex :=
  map (fun c => (Lit c, One)) (list_ascii_of_string s).

(** The greedy loop of [k*]: as many characters of [k] as possible, one
    less each time the [rest] of the pattern fails after them. *)
Fixpoint star (k : cls) (rest : string -> option nat) (s : string) : option nat :=
  match s with
  | String c s' =>
      if cls_mem k c
      then match star k rest s' with
           | Some n => Some (S n)
           | None => rest s
           end
      else rest s
  | EmptyString => rest s
  end.

(** [match_here re s]: the length of the match of [re] at the start of
    [s] that a backtracking matcher finds first, if there is one. *)
Fixpoint match_here (re : regex) : string -> option nat :=
  match re with
  | [] => fun _ => Some O
  | (k, q) :: re' =>
      let rest := match_here re' in
      match q with
      | One => fun s =>
          match s with
          | String c s' => if cls_mem k c then option_map S (rest s') else None
          | EmptyString => None
          end
      | Opt => fun s =>
          match s with
          | String c s' =>
              if cls_mem k c
              then match rest s' with
                   | Some n => Some (S n)
                   | None => rest s
                   end
              else rest s
          | EmptyString => rest s
          end
      | Star => star k rest
      | Plus => fun s =>
          match s with
          | String c s' =>
              if cls_mem k c then option_map S (star k rest s') else None
          | EmptyString => None
          end
      end
  end.

(** [re.search(pattern, s).group(0)], [None] when nothing matches. *)
Fixpoint search (re : regex) (s : string) : option string :=
  match match_here re s with
  | Some n => Some (PyStr.take n s)
  | None =>
      match s with
      | String _ s' => search re s'
      | EmptyString => None
      end
  end.

(** [re.sub(pattern, repl, s)] for a pattern that matches no empty
    string: the matches are replaced from left to right. [skip] counts the
    characters of a match still to be passed over. *)
Fixpoint sub_from (re : regex) (repl s : string) (skip : nat) : string :=
  match s with
  | EmptyString => EmptyString
  | String c s' =>
      match skip with
      | S k => sub_from re repl s' k
      | O =>
          match match_here re s with
          | Some (S n) => repl ++ sub_from re repl s' n
          | _ => String c (sub_from re repl s' 0)
          end
      end
  end.

Definition sub (re : regex) (repl s : string) : string := sub_from re repl s 0.

End Re.

(** ** resume_processor.py *)

Module ResumeProcessor.

(** The dictionary built by [parse_resume]. *)
Record resume_data : Type := {
  raw_text : string;
  skills : list string;
  experience : string;
  education : list string;
  cleaned_text : string
}.

Definition common_skills : list string :=
  [ "python"; "java"; "javascript"; "sql"; "machine learning"; "ai";
    "deep learning"; "tensorflow"; "pytorch"; "react"; "node.js";
    "aws"; "docker"; "kubernetes"; "git"; "rest api"; "mongodb";
    "postgresql"; "mysql"; "html"; "css"; "typescript"; "angular";
    "vue"; "django"; "flask"; "fastapi"; "spring"; "hibernate";
    "jenkins"; "ansible"; "terraform"; "gcp"; "azure"; "linux";
    "unix"; "bash"; "shell"; "power bi"; "tableau"; "excel";
    "agile"; "scrum"; "jira"; "confluence"; "devops"; "ci/cd" ].

Definition _extract_skills (text : string) : list string :=
  let text_lower := PyStr.lower text in
  filter (fun skill => PyStr.contains skill text_lower) common_skills.

(** [(\d+)\s*years?[\s\w]*experience] *)
Definition pattern_years_experience : Re.regex :=
  [(Re.Digit, Re.Plus); (Re.Space, Re.Star)] ++ Re.lit "year" ++
  [(Re.Lit "s", Re.Opt); (Re.Union Re.Space Re.Word, Re.Star)] ++
  Re.lit "experience".

(** [experience[\s\w]*(\d+)\s*years?] *)
Definition pattern_experience_years : Re.regex :=
  Re.lit "experience" ++
  [(Re.Union Re.Space Re.Word, Re.Star); (Re.Digit, Re.Plus); (Re.Space, Re.Star)] ++
  Re.lit "year" ++ [(Re.Lit "s", Re.Opt)].

(** [(\d+)\s*\+?\s*years?] *)
Definition pattern_years : Re.regex :=
  [(Re.Digit, Re.Plus); (Re.Space, Re.Star); (Re.Lit "+", Re.Opt); (Re.Space, Re.Star)] ++
  Re.lit "year" ++ [(Re.Lit "s", Re.Opt)].

Definition experience_patterns : list Re.regex :=
  [pattern_years_experience; pattern_experience_years; pattern_years].

Fixpoint first_match (patterns : list Re.regex) (s : string) : option string :=
  match patterns with
  | [] => None
  | pattern :: rest =>
      match Re.search pattern s with
      | Some m => Some m
      | None => first_match rest s
      end
  end.

Definition _extract_experience (text : string) : string :=
  match first_match experience_patterns (PyStr.lower text) with
  | Some m => m
  | None => "Experience not specified"
  end.

(** The keywords as the source writes them; the backslash of [b\.tech]
    is part of the string. *)
Definition education_keywords : list string :=
  [ "bachelor"; "master"; "phd"; "b\.tech"; "m\.tech"; "be"; "me";
    "bsc"; "msc"; "mbbs"; "bca"; "mca"; "associate"; "diploma" ].

Definition backslash : ascii := "092"%char.

(** One character of a pattern under [re.IGNORECASE]. *)
Definition ignorecase (c : ascii) : Re.cls * Re.quant :=
  (Re.Union (Re.Lit (PyStr.lower_char c)) (Re.Lit (PyStr.upper_char c)), Re.One).

(** [re.compile(keyword, re.IGNORECASE)] for a keyword of literal
    characters, a backslash escaping the character after it. *)
Fixpoint compile_ignorecase (keyword : string) : Re.regex :=
  match keyword with
  | EmptyString => []
  | String c rest =>
      if Ascii.eqb c backslash
      then match rest with
           | String d rest' => ignorecase d :: compile_ignorecase rest'
           | EmptyString => []
           end
      else ignorecase c :: compile_ignorecase rest
  end.

Definition _extract_education (text : string) : list string :=
  filter
    (fun keyword =>
       match Re.search (compile_ignorecase keyword) text with
       | Some _ => true
       | None => false
       end)
    education_keywords.

(** [\s+] *)
Definition pattern_spaces : Re.regex := [(Re.Space, Re.Plus)].

(** A character that [[^\w\s.,!?;:]] does not match. *)
Definition is_kept (c : ascii) : bool :=
  PyStr.is_word c || PyStr.is_space c ||
  existsb (Ascii.eqb c) (list_ascii_of_string ".,!?;:").

(** [re.sub(r'[^\w\s.,!?;:]', '', s)]: every character the class matches
    is deleted. *)
Fixpoint delete_unkept (s : string) : string :=
  match s with
  | EmptyString => EmptyString
  | String c s' => if is_kept c then String c (delete_unkept s') else delete_unkept s'
  end.

Definition _clean_text (text : string) : string :=
  let text := Re.sub pattern_spaces " " text in
  let text := delete_unkept text in
  PyStr.strip text.

Definition parse_resume (text : string) : resume_data :=
  {| raw_text := text;
     skills := _extract_skills text;
     experience := _extract_experience text;
     education := _extract_education text;
     cleaned_text := _clean_text text |}.

(** What the readers of the three formats get from a file: the text of
    each page of a PDF, of each paragraph of a DOCX, and the content of a
    text file; each can raise. *)
Record file_system : Type := {
  pdf_pages : string -> outcome (list string);
  docx_paragraphs : string -> outcome (list string);
  txt_content : string -> outcome string
}.

(** [text += piece + "\n"] for every piece. *)
Fixpoint join_lines (pieces : list string) : string :=
  match pieces with
  | [] => EmptyString
  | piece :: rest => piece ++ String PyStr.newline (join_lines rest)
  end.

Definition _extract_from_pdf (fs : file_system) (file_path : string)
  : outcome string :=
  pages <- pdf_pages fs file_path ;;
  Ok (join_lines pages).

Definition _extract_from_docx (fs : file_system) (file_path : string)
  : outcome string :=
  paragraphs <- docx_paragraphs fs file_path ;;
  Ok (join_lines paragraphs).

Definition _extract_from_txt (fs : file_system) (file_path : string)
  : outcome string :=
  txt_content fs file_path.

Definition extract_text (fs : file_system) (file_path : string) : outcome string :=
  let file_ext := PyStr.lower (snd (PyOs.splitext file_path)) in
  if String.eqb file_ext ".pdf" then _extract_from_pdf fs file_path
  else if String.eqb file_ext ".docx" then _extract_from_docx fs file_path
  else if String.eqb file_ext ".txt" then _extract_from_txt fs file_path
  else Raise (ValueError ("Unsupported file format: " ++ file_ext)).

End ResumeProcessor.

(** ** file_parser.py *)

Module FileParser.

Definition get_supported_formats : list string := [".pdf"; ".docx"; ".txt"].

Definition validate_file_format (filename : string) : bool :=
  let file_ext := PyStr.lower (snd (PyOs.splitext filename)) in
  existsb (String.eqb file_ext) get_supported_formats.

End FileParser.

(** ** jd_matcher.py: the judgment parser *)

Module JDMatcher.

Record analysis : Type := {
  score : Z;
  strengths : list string;
  missing : list string;
  recommendation : string
}.

Definition set_score (v : Z) (a : analysis) : analysis :=
  {| score := v; strengths := strengths a; missing := missing a;
     recommendation := recommendation a |}.

Definition set_strengths (v : list string) (a : analysis) : analysis :=
  {| score := score a; strengths := v; missing := missing a;
     recommendation := recommendation a |}.

Definition set_missing (v : list string) (a : analysis) : analysis :=
  {| score := score a; strengths := strengths a; missing := v;
     recommendation := recommendation a |}.

Definition set_recommendation (v : string) (a : analysis) : analysis :=
  {| score := score a; strengths := strengths a; missing := missing a;
     recommendation := v |}.

Definition section_labels : list string :=
  ["Score:"; "Strengths:"; "Missing:"; "Recommendation:"].

(** The second bullet marker of the source, three code points (a
    mis-decoded bullet), as its UTF-8 bytes. *)
Definition bullet_glyph : string :=
  string_of_list_ascii
    ["195"; "162"; "226"; "130"; "172"; "194"; "162"]%char.

Definition bullet_markers : list string := ["-"; bullet_glyph; "*"].

(** The loop of [_extract_bullet_points] over the lines after the label:
    a blank line is passed over ([continue]), a section label ends the
    scan ([break]). *)
Fixpoint collect_bullets (ls : list string) : list string :=
  match ls with
  | [] => []
  | l :: rest =>
      let line := PyStr.strip l in
      if String.eqb line "" then collect_bullets rest
      else if PyStr.startswith_any line section_labels then []
      else if PyStr.startswith_any line bullet_markers
           then PyStr.strip (PyStr.tail line) :: collect_bullets rest
           else line :: collect_bullets rest
  end.

Definition _extract_bullet_points (lines : list string) (start_index : nat)
  : list string :=
  collect_bullets (skipn (S start_index) lines).

(** [(\d+)] *)
Definition pattern_digits : Re.regex := [(Re.Digit, Re.Plus)].

(** One iteration of the loop of [_parse_llm_response]. The [try] of the
    source guards the [Score:] branch only: when [int] raises, the
    [except] passes and the score stays. [lines.index(line)] looks the
    stripped line up among the unstripped lines, outside any [try]. *)
Definition parse_line (lines : list string) (result : analysis) (line : string)
  : outcome analysis :=
  let line := PyStr.strip line in
  if PyStr.startswith line "Score:" then
    match Re.search pattern_digits line with
    | Some digits =>
        match PyStr.int digits with
        | Ok value => Ok (set_score value result)
        | Raise _ => Ok result
        end
    | None => Ok result
    end
  else if PyStr.startswith line "Strengths:" then
    start_index <- PyStr.index lines line ;;
    Ok (set_strengths (_extract_bullet_points lines start_index) result)
  else if PyStr.startswith line "Missing:" then
    start_index <- PyStr.index lines line ;;
    Ok (set_missing (_extract_bullet_points lines start_index) result)
  else if PyStr.startswith line "Recommendation:" then
    Ok (set_recommendation
          (PyStr.strip (PyStr.replace line "Recommendation:" "")) result)
  else Ok result.

Fixpoint parse_lines (lines : list string) (result : analysis)
         (todo : list string) : outcome analysis :=
  match todo with
  | [] => Ok result
  | line :: rest =>
      result' <- parse_line lines result line ;;
      parse_lines lines result' rest
  end.

Definition default_analysis : analysis :=
  {| score := 0; strengths := []; missing := []; recommendation := "Maybe" |}.

Definition _parse_llm_response (response : string) : outcome analysis :=
  let lines := PyStr.split_lines response in
  parse_lines lines default_analysis lines.

(** *** Cosine similarity

    A vector is a list of numbers, here real numbers. Dividing NumPy
    floats never raises: a zero divisor gives NaN for a zero dividend
    and an infinity otherwise (with a warning, which is not an
    exception). *)

Inductive np_float : Type :=
| Finite (x : R)
| Infinity (negative : bool)
| NaN.

Definition np_divide (x y : R) : np_float :=
  if Req_dec_T y 0 then
    if Req_dec_T x 0 then NaN
    else if Rlt_dec x 0 then Infinity true else Infinity false
  else Finite (x / y).

Fixpoint dot (a b : list R) : R :=
  match a, b with
  | x :: a', y :: b' => (x * y + dot a' b')%R
  | _, _ => 0%R
  end.

(** [np.dot] on two one-dimensional arrays: their lengths must agree. *)
Definition np_dot (a b : list R) : outcome R :=
  if Nat.eqb (List.length a) (List.length b) then Ok (dot a b)
  else Raise (ValueError "shapes not aligned").

(** [np.linalg.norm] *)
Definition norm (a : list R) : R := sqrt (dot a a).

Definition _cosine_similarity (a b : list R) : outcome np_float :=
  d <- np_dot a b ;;
  Ok (np_divide d (norm a * norm b)%R).

(** The part of a matcher that [calculate_similarity] uses: the embedding
    service, which can raise, and the vector store, [None] until
    [create_jd_embedding] and then holding the embedding of the job
    description (the first of the collection). *)
Record matcher : Type := {
  embed_query : string -> outcome (list R);
  vector_store : option (list R)
}.

Definition calculate_similarity (self : matcher) (resume_text : string)
  : outcome np_float :=
  match vector_store self with
  | None =>
      Raise (ValueError "Job description not set. Call create_jd_embedding first.")
  | Some jd_embedding =>
      resume_embedding <- embed_query self resume_text ;;
      _cosine_similarity resume_embedding jd_embedding
  end.

(** The values substituted into the prompt template of [analyze_fit]. *)
Record prompt : Type := {
  prompt_job_description : string;
  prompt_resume_text : string;
  prompt_skills : string;
  prompt_experience : string;
  prompt_education : string
}.

(** [analyze_fit], with the language model's [predict] as a parameter:
    the call can raise, and so can the parsing of its answer. *)
Definition analyze_fit (llm_predict : prompt -> outcome string)
           (resume_data : ResumeProcessor.resume_data)
           (job_description : string) : outcome analysis :=
  let prompt :=
    {| prompt_job_description := job_description;
       prompt_resume_text :=
         PyStr.take 2000 (ResumeProcessor.cleaned_text resume_data);
       prompt_skills := PyStr.join ", " (ResumeProcessor.skills resume_data);
       prompt_experience := ResumeProcessor.experience resume_data;
       prompt_education :=
         PyStr.join ", " (ResumeProcessor.education resume_data) |} in
  response <- llm_predict prompt ;;
  _parse_llm_response response.

End JDMatcher.

(** ** embeddings.py *)

Module Embeddings.

Definition normalize_vector (vector : list R) : list R :=
  let norm := JDMatcher.norm vector in
  if Req_dec_T norm 0 then vector
  else map (fun x => (x / norm)%R) vector.

(** [range(0, stop, step)] for a positive [step]: 0, step, 2 step, ...
    below [stop]. *)
Definition range_step (stop step : nat) : list nat :=
  map (fun k => k * step) (seq 0 ((stop + step - 1) / step)).

Section Batch.

Context {V : Type}.
Variable texts : list string.
Variable embed_documents : list string -> outcome (list V).

(** The loop of [batch_process_embeddings] over the start positions,
    [texts[i:i + batch_size]] being the batch at [i]. *)
Fixpoint batch_loop (batch_size : nat) (starts : list nat) (embeddings : list V)
  : outcome (list V) :=
  match starts with
  | [] => Ok embeddings
  | i :: rest =>
      let batch := firstn batch_size (skipn i texts) in
      batch_embeddings <- embed_documents batch ;;
      batch_loop batch_size rest (embeddings ++ batch_embeddings)
  end.

(** A step of zero makes [range] raise; a negative step gives an empty
    range. *)
Definition batch_process_embeddings (batch_size : Z) : outcome (list V) :=
  if (batch_size =? 0)%Z then Raise (ValueError "range() arg 3 must not be zero")
  else if (batch_size <? 0)%Z then Ok []
  else batch_loop (Z.to_nat batch_size)
         (range_step (List.length texts) (Z.to_nat batch_size)) [].

End Batch.

End Embeddings.

(** ** ranking_engine.py *)

Module RankingEngine.

Import ResumeProcessor.

(** A Python float of the ranking: a number, taken as an exact rational,
    an infinity or NaN. *)
Inductive pyfloat : Type :=
| Num (q : Q)
| Inf (negative : bool)
| Nan.

Definition Qltb (x y : Q) : bool := negb (Qle_bool y x).

(** [x < y] on floats: false when one of them is NaN. *)
Definition flt (x y : pyfloat) : bool :=
  match x, y with
  | Num a, Num b => Qltb a b
  | Num _, Inf negative => negb negative
  | Inf negative, Num _ => negative
  | Inf n1, Inf n2 => n1 && negb n2
  | _, _ => false
  end.

(** [x <= y] on floats: false when one of them is NaN. *)
Definition fle (x y : pyfloat) : bool :=
  match x, y with
  | Num a, Num b => Qle_bool a b
  | Num _, Inf negative => negb negative
  | Inf negative, Num _ => negative
  | Inf n1, Inf n2 => n1 || negb n2
  | _, _ => false
  end.


Definition is_nan (x : pyfloat) : bool :=
  match x with
  | Nan => true
  | _ => false
  end.

(** What [RankingEngine] uses of the matcher it is constructed with. The
    similarity is a float: it can be NaN (a zero-norm embedding) or an
    infinity. *)
Record jd_matcher : Type := {
  calculate_similarity : string -> outcome pyfloat;
  analyze_fit : resume_data -> string -> outcome JDMatcher.analysis
}.

(** An element of the list given to [rank_resumes], as the callers build it. *)
Record resume : Type := {
  filename : string;
  resume_raw_text : string;
  processed_data : resume_data;
  file_size : Z
}.

Record ranking_factors : Type := {
  llm_score : Z;
  embedding_similarity : pyfloat;
  skills_count : Z
}.

(** [{**resume, 'similarity_score': ..., ...}] *)
Record ranked_resume : Type := {
  base : resume;
  similarity_score : pyfloat;
  analysis : JDMatcher.analysis;
  final_score : pyfloat;
  factors : ranking_factors
}.

Local Open Scope Q_scope.

(** [round(x)]: to the nearest integer, a tie to the even one. *)
Definition round_half_even (x : Q) : Z :=
  let n := Qfloor x in
  match Qcompare (x - inject_Z n) (1 # 2) with
  | Lt => n
  | Gt => (n + 1)%Z
  | Eq => if Z.even n then n else (n + 1)%Z
  end.

(** [round(x, 2)] of a number. *)
Definition round2 (x : Q) : Q := inject_Z (round_half_even (x * 100)) / 100.

(** [round(x, 2)] of a float: an infinity and NaN are left as they are. *)
Definition round_2 (x : pyfloat) : pyfloat :=
  match x with
  | Num q => Num (round2 q)
  | Inf negative => Inf negative
  | Nan => Nan
  end.

(** [x * 100] of a float. *)
Definition times_100 (x : pyfloat) : pyfloat :=
  match x with
  | Num q => Num (q * 100)
  | Inf negative => Inf negative
  | Nan => Nan
  end.

Definition weight_llm_score : Q := 0.5.
Definition weight_similarity : Q := 0.3.
Definition weight_skills : Q := 0.2.

Definition _calculate_final_score (llm_score similarity : Q) (skills_count : Z)
           (resume_data : ResumeProcessor.resume_data) : Q :=
  let normalized_skills := Qmin (inject_Z skills_count / 20) 1 * 100 in
  weight_llm_score * llm_score +
  weight_similarity * similarity * 100 +
  weight_skills * normalized_skills.

(** The int [n] as the float that the product of a float and [n] needs:
    an int that rounds beyond the largest float raises [OverflowError]. *)
Definition float_of_int (n : Z) : outcome Q :=
  if (Z.abs n <? 2 ^ 1024 - 2 ^ 970)%Z then Ok (inject_Z n)
  else Raise (OverflowError "int too large to convert to float").

(** The call of [_calculate_final_score] in [rank_resumes], with the int
    score of the analysis and the float of the similarity: the product
    with the score comes first and can raise; an infinite or NaN
    similarity makes the sum infinite or NaN. *)
Definition final_score_call (llm_score : Z) (similarity : pyfloat)
           (skills_count : Z) (resume_data : ResumeProcessor.resume_data)
  : outcome pyfloat :=
  llm <- float_of_int llm_score ;;
  Ok match similarity with
     | Num s => Num (_calculate_final_score llm s skills_count resume_data)
     | Inf negative => Inf negative
     | Nan => Nan
     end.

(** [list.sort(key=key, reverse=True)]. The sort compares keys with [<]
    only and is stable; with [reverse] the list is reversed, sorted in
    ascending order and reversed again, which keeps it stable. *)
Section Sort.

Context {A : Type} (key : A -> pyfloat).

Fixpoint insert (x : A) (l : list A) : list A :=
  match l with
  | [] => [x]
  | y :: l' => if flt (key y) (key x) then y :: insert x l' else x :: l
  end.

Fixpoint stable_sort (l : list A) : list A :=
  match l with
  | [] => []
  | x :: l' => insert x (stable_sort l')
  end.

(** The result of the sort when [<] orders the keys: no key is NaN. *)
Definition sort_reverse (l : list A) : list A := rev (stable_sort (rev l)).

(** A list with the elements of [l], in some order. *)
Definition arrangement (l : list A) : Type := { l' : list A | Permutation l' l }.

Definition has_nan (l : list A) : bool := existsb (fun a => is_nan (key a)) l.

(** The sort on any keys. With a NaN key the comparisons order nothing,
    and what the merge sort leaves depends on its strategy: some
    arrangement of the list, [with_nan]. *)
Definition list_sort_reverse (with_nan : forall l, arrangement l) (l : list A)
  : list A :=
  if has_nan l then proj1_sig (with_nan l) else sort_reverse l.



End Sort.

(** The list as it is, as an arrangement of itself. *)
Definition as_it_is {A : Type} (l : list A) : arrangement l :=
  exist _ l (Permutation_refl l).

Section Rank.

Variable self_jd_matcher : jd_matcher.
Variable job_description : string.
Variable sort_with_nan : forall l : list ranked_resume, arrangement l.

(** The body of the loop of [rank_resumes]: the entry of one resume. *)
Definition rank_one (resume : resume) : outcome ranked_resume :=
  similarity_score <-
    calculate_similarity self_jd_matcher
      (cleaned_text (processed_data resume)) ;;
  analysis <-
    analyze_fit self_jd_matcher (processed_data resume) job_description ;;
  let skills_len := Z.of_nat (List.length (skills (processed_data resume))) in
  final_score <-
    final_score_call (JDMatcher.score analysis) similarity_score skills_len
      (processed_data resume) ;;
  Ok {| base := resume;
        similarity_score := round_2 (times_100 similarity_score);
        analysis := analysis;
        final_score := round_2 final_score;
        factors := {| llm_score := JDMatcher.score analysis;
                      embedding_similarity := times_100 similarity_score;
                      skills_count := skills_len |} |}.

(** The loop, [ranked_resumes] being the list appended to. *)
Fixpoint rank_loop (resumes : list resume) (ranked_resumes : list ranked_resume)
  : outcome (list ranked_resume) :=
  match resumes with
  | [] => Ok ranked_resumes
  | resume :: rest =>
      ranked_resume <- rank_one resume ;;
      rank_loop rest (ranked_resumes ++ [ranked_resume])
  end.

Definition rank_resumes (resumes : list resume) : outcome (list ranked_resume) :=
  ranked_resumes <- rank_loop resumes [] ;;
  Ok (list_sort_reverse final_score sort_with_nan ranked_resumes).

(** The two calls of the matcher for one resume both return, and the
    score of the analysis is not too large for a float. *)
Definition succeeds (resume : resume) : Prop :=
  (exists s, calculate_similarity self_jd_matcher
               (cleaned_text (processed_data resume)) = Ok s) /\
  (exists a, analyze_fit self_jd_matcher (processed_data resume)
               job_description = Ok a /\
             exists x, float_of_int (JDMatcher.score a) = Ok x).

(** The similarity raises [e]; or it returns and the analysis raises [e];
    or both return and the score of the analysis is too large for a
    float, which raises [e]. *)
Definition fails_with (resume : resume) (e : exn) : Prop :=
  calculate_similarity self_jd_matcher
    (cleaned_text (processed_data resume)) = Raise e \/
  ((exists s, calculate_similarity self_jd_matcher
                (cleaned_text (processed_data resume)) = Ok s) /\
   (analyze_fit self_jd_matcher (processed_data resume) job_description
      = Raise e \/
    exists a, analyze_fit self_jd_matcher (processed_data resume)
                job_description = Ok a /\
              float_of_int (JDMatcher.score a) = Raise e)).

End Rank.

End RankingEngine.

(** ** main.py: the two handlers of the API

    Creating, writing and deleting the temporary copy of an upload are
    taken to succeed; what is printed is left out. *)

Module Api.

Import ResumeProcessor RankingEngine.

(** A handler returns a body or raises [HTTPException]. *)
Inductive http_result (A : Type) : Type :=
| Response (body : A)
| HTTPException (status_code : Z) (detail : string).

Arguments Response {A} body.
Arguments HTTPException {A} status_code detail.

(** The module's globals; [ranking_engine] holds the matcher the engine
    was constructed with. *)
Record api_state : Type := {
  current_jd : string;
  jd_matcher : option RankingEngine.jd_matcher;
  ranking_engine : option RankingEngine.jd_matcher
}.

Definition initial_state : api_state :=
  {| current_jd := ""; jd_matcher := None; ranking_engine := None |}.

Record upload : Type := {
  upload_filename : string;
  upload_content : string
}.

(** [str(e)] *)
Definition exn_str (e : exn) : string :=
  match e with
  | ValueError msg => msg
  | OverflowError msg => msg
  | AttributeError msg => msg
  | ExternalServiceError msg => msg
  end.

(** What the body of a [try] can raise: an [HTTPException] or another
    exception. *)
Inductive raised : Type :=
| RaisedHTTP (status_code : Z) (detail : string)
| RaisedExn (e : exn).

(** The body of a [try] returns or raises. *)
Inductive attempt (A : Type) : Type :=
| Returns (a : A)
| Raises (r : raised).

Arguments Returns {A} a.
Arguments Raises {A} r.

(** [str(e)] of an [HTTPException], as recent Starlette prints it. *)
Definition http_str (status_code : Z) (detail : string) : string :=
  NilZero.string_of_int (Z.to_int status_code) ++ ": " ++ detail.

Definition raised_str (r : raised) : string :=
  match r with
  | RaisedHTTP status_code detail => http_str status_code detail
  | RaisedExn e => exn_str e
  end.

(** [except Exception as e: raise HTTPException(status_code=500,
    detail=prefix + str(e))] after a [try]. An [HTTPException] is an
    [Exception]: one raised in the [try] is caught as well. *)
Definition except_exception {A : Type} (prefix : string) (body : attempt A)
  : http_result A :=
  match body with
  | Returns a => Response a
  | Raises r => HTTPException 500 (prefix ++ raised_str r)
  end.

Section Handlers.

(** The file system, the path of the temporary copy of an upload, what
    the sort leaves of keys with a NaN, and the constructor and
    [create_jd_embedding] of the matcher. *)
Variable fs : file_system.
Variable tmp_path : upload -> string.
Variable sort_with_nan : forall l : list ranked_resume, arrangement l.
Variable new_matcher : outcome RankingEngine.jd_matcher.
Variable create_jd_embedding :
  RankingEngine.jd_matcher -> string -> outcome RankingEngine.jd_matcher.

(** The [try] of [set_job_description], with the globals as its
    assignments leave them: the request body has a text or not, and
    without a text [HTTPException(400)] is raised, inside the [try]. *)
Definition set_job_description_try (st : api_state) (text : option string)
  : api_state * attempt string :=
  let jd_text := match text with Some t => t | None => "" end in
  if String.eqb jd_text "" then
    (st, Raises (RaisedHTTP 400 "Job description text is required"))
  else
    let st1 := {| current_jd := jd_text; jd_matcher := jd_matcher st;
                  ranking_engine := ranking_engine st |} in
    match new_matcher with
    | Raise e => (st1, Raises (RaisedExn e))
    | Ok m =>
        let st2 := {| current_jd := jd_text; jd_matcher := Some m;
                      ranking_engine := ranking_engine st |} in
        match create_jd_embedding m jd_text with
        | Raise e => (st2, Raises (RaisedExn e))
        | Ok m' =>
            ({| current_jd := jd_text; jd_matcher := Some m';
                ranking_engine := Some m' |},
             Returns "Job description set successfully")
        end
    end.

Definition set_job_description (st : api_state) (text : option string)
  : api_state * http_result string :=
  let tried := set_job_description_try st text in
  (fst tried, except_exception "Error setting job description: " (snd tried)).

(** The loop of [process_resumes] over the uploads: an upload whose text
    cannot be extracted is passed over. *)
Fixpoint process_files (files : list upload) (processed_resumes : list resume)
  : list resume :=
  match files with
  | [] => processed_resumes
  | file :: rest =>
      match extract_text fs (tmp_path file) with
      | Ok text =>
          let parsed_data := parse_resume text in
          let resume_data :=
            {| filename := upload_filename file;
               resume_raw_text := text;
               processed_data := parsed_data;
               file_size := Z.of_nat (String.length (upload_content file)) |} in
          process_files rest (processed_resumes ++ [resume_data])
      | Raise _ => process_files rest processed_resumes
      end
  end.

(** The [try] of [process_resumes]; with no engine, [ranking_engine] is
    [None] and has no [rank_resumes]. *)
Definition process_resumes_try (st : api_state) (files : list upload)
  : attempt (Z * list ranked_resume) :=
  let processed_resumes := process_files files [] in
  match ranking_engine st with
  | None =>
      Raises (RaisedExn (AttributeError
                "'NoneType' object has no attribute 'rank_resumes'"))
  | Some engine_matcher =>
      match rank_resumes engine_matcher (current_jd st) sort_with_nan
              processed_resumes with
      | Ok ranked_resumes =>
          Returns (Z.of_nat (List.length ranked_resumes), ranked_resumes)
      | Raise e => Raises (RaisedExn e)
      end
  end.

(** [process_resumes]: the 400 is raised before the [try]. *)
Definition process_resumes (st : api_state) (files : list upload)
  : http_result (Z * list ranked_resume) :=
  match jd_matcher st with
  | None => HTTPException 400 "Job description not set. Please set JD first."
  | Some _ =>
      if String.eqb (current_jd st) "" then
        HTTPException 400 "Job description not set. Please set JD first."
      else
        except_exception "Error processing resumes: "
          (process_resumes_try st files)
  end.

End Handlers.

End Api.

(** ** Auxiliary notions of the statements *)

(** [Subseq l1 l2]: [l1] is [l2] with some elements left out, in the same
    order. *)
Inductive Subseq {A : Type} : list A -> list A -> Prop :=
| Subseq_nil : Subseq [] []
| Subseq_skip (x : A) (l1 l2 : list A) : Subseq l1 l2 -> Subseq l1 (x :: l2)
| Subseq_keep (x : A) (l1 l2 : list A) : Subseq l1 l2 -> Subseq (x :: l1) (x :: l2).

(** No two elements of [l] are equal, as a test. *)
Fixpoint distinct (l : list string) : bool :=
  match l with
  | [] => true
  | x :: l' => negb (existsb (String.eqb x) l') && distinct l'
  end.

(** The text has a decimal digit. *)
Definition has_digit (s : string) : bool :=
  existsb PyStr.is_digit (list_ascii_of_string s).

(** The pattern has an item that must match one digit at least. *)
Definition requires_digit (re : Re.regex) : bool :=
  existsb
    (fun item =>
       match item with
       | (Re.Digit, Re.One) | (Re.Digit, Re.Plus) => true
       | _ => false
       end)
    re.

(** A keyword without the backslashes that escape its characters. *)
Fixpoint unescape (keyword : string) : string :=
  match keyword with
  | EmptyString => EmptyString
  | String c rest =>
      if Ascii.eqb c ResumeProcessor.backslash
      then match rest with
           | String d rest' => String d (unescape rest')
           | EmptyString => EmptyString
           end
      else String c (unescape rest)
  end.

(** A character a cleaned text can have: a letter, a digit, the
    underscore, the space, or one of [. , ! ? ; :]. *)
Definition clean_char (c : ascii) : bool :=
  PyStr.is_word c || Ascii.eqb c " " ||
  existsb (Ascii.eqb c) (list_ascii_of_string ".,!?;:").

(** Every character of [s] passes the test [f]. *)
Definition all_chars (f : ascii -> bool) (s : string) : bool :=
  forallb f (list_ascii_of_string s).

(** Matching the character [l] of a pattern under [re.IGNORECASE] is
    comparing [l] with the lowercased character, for each of the 256
    characters. *)
Definition ignorecase_ok (l : ascii) : bool :=
  forallb
    (fun c =>
       Bool.eqb (Re.cls_mem (fst (ResumeProcessor.ignorecase l)) c)
                (Ascii.eqb l (PyStr.lower_char c)))
    PyStr.all_ascii.

(** A file system whose files all read as empty. *)
Definition empty_files : ResumeProcessor.file_system :=
  {| ResumeProcessor.pdf_pages := fun _ => Ok [];
     ResumeProcessor.docx_paragraphs := fun _ => Ok [];
     ResumeProcessor.txt_content := fun _ => Ok EmptyString |}.

(** The stripped line makes the parser call [lines.index]: it starts with
    [Strengths:] or [Missing:] (and then not with [Score:]). *)
Definition looks_up (line : string) : bool :=
  negb (PyStr.startswith line "Score:") &&
  (PyStr.startswith line "Strengths:" || PyStr.startswith line "Missing:").

(** The line is a label line whose stripped text is none of the [lines]. *)
Definition lost_label (lines : list string) (line : string) : bool :=
  looks_up (PyStr.strip line) &&
  negb (existsb (String.eqb (PyStr.strip line)) lines).

(** The text fields of a verdict have no whitespace around them. *)
Definition stripped_verdict (a : JDMatcher.analysis) : Prop :=
  PyStr.strip (JDMatcher.recommendation a) = JDMatcher.recommendation a /\
  Forall (fun b => PyStr.strip b = b) (JDMatcher.strengths a) /\
  Forall (fun b => PyStr.strip b = b) (JDMatcher.missing a).


(** An embedder that refuses an empty batch and a batch of more than
    [batch_size] texts. *)
Definition batch_limited {V : Type} (batch_size : Z)
           (embed_documents : list string -> outcome (list V))
           (batch : list string) : outcome (list V) :=
  if ((1 <=? List.length batch)%nat && (Z.of_nat (List.length batch) <=? batch_size)%Z)%bool
  then embed_documents batch
  else Raise (ValueError "batch size").

(** An embedder that embeds each text on its own, by its length. *)
Definition embed_lengths (batch : list string) : outcome (list nat) :=
  Ok (map String.length batch).


(** The temporary copy has the extension of the uploaded file's name (the
    suffix it is created with). *)
Definition keeps_extension (tmp_path : Api.upload -> string) (file : Api.upload)
  : Prop :=
  snd (PyOs.splitext (tmp_path file)) = snd (PyOs.splitext (Api.upload_filename file)).

(** The states of the API after any number of [set_job_description]
    requests, whatever the matcher's constructor and embedding do. *)
Inductive reachable : Api.api_state -> Prop :=
| reachable_initial : reachable Api.initial_state
| reachable_set (st : Api.api_state)
    (new_matcher : outcome RankingEngine.jd_matcher)
    (create_jd_embedding :
       RankingEngine.jd_matcher -> string -> outcome RankingEngine.jd_matcher)
    (text : option string) :
    reachable st ->
    reachable (fst (Api.set_job_description new_matcher create_jd_embedding st text)).

(** The decimal digits at the start of [s]. *)
Fixpoint take_digits (s : string) : string :=
  match s with
  | String c s' =>
      if PyStr.is_digit c then String c (take_digits s') else EmptyString
  | EmptyString => EmptyString
  end.

(** The first run of decimal digits of [s], when [s] has a digit. *)
Fixpoint first_digit_run (s : string) : option string :=
  match s with
  | EmptyString => None
  | String c s' =>
      if PyStr.is_digit c then Some (take_digits s) else first_digit_run s'
  end.

(** The score a line sets: the line, stripped, starts with [Score:] and
    has a run of decimal digits, the first one of at most 4300 digits;
    the score is the number that this run writes. *)
Definition score_of_line (line : string) : option Z :=
  let line := PyStr.strip line in
  if PyStr.startswith line "Score:" then
    match first_digit_run line with
    | Some digits =>
        if (String.length digits <=? PyStr.int_max_str_digits)%nat
        then Some (PyStr.int_of_digits digits)
        else None
    | None => None
    end
  else None.

(** All the results of [f] over [l], in order, or the first exception. *)
Fixpoint traverse {A B : Type} (f : A -> outcome B) (l : list A) : outcome (list B) :=
  match l with
  | [] => Ok []
  | x :: l' =>
      y <- f x ;;
      ys <- traverse f l' ;;
      Ok (y :: ys)
  end.

(** ** Concrete inputs *)

Module Examples.

Import ResumeProcessor RankingEngine.

Definition example_text : string :=
  "I have 5 years of experience with Python, JavaScript, and machine learning.".

(** A text that contains every term of the vocabulary. *)
Definition all_skills_text : string := PyStr.join " " common_skills.

(** The response of [test_response_parsing] in [test_jd_matcher.py]. *)
Definition sample_response : string :=
"
        Score: 85
        Strengths: - Strong Python experience
        - Good communication skills
        Missing: - Cloud experience
        - Team leadership
        Recommendation: Yes
        ".

Definition data_of (text : string) : resume_data :=
  {| raw_text := text;
     skills := _extract_skills text;
     experience := _extract_experience text;
     education := [];
     cleaned_text := text |}.

Definition resume_of (name text : string) : resume :=
  {| filename := name;
     resume_raw_text := text;
     processed_data := data_of text;
     file_size := Z.of_nat (String.length text) |}.

Definition alpha : resume := resume_of "alpha.txt" "alpha".
Definition beta : resume := resume_of "beta.txt" "beta".
Definition gamma : resume := resume_of "gamma.txt" "gamma".

Definition job : string := "Python developer".

(** A language model that answers for every resume. *)
Definition steady_llm (p : JDMatcher.prompt) : outcome string :=
  if String.eqb (JDMatcher.prompt_resume_text p) "beta"
  then Ok "Score: 90"
  else Ok "Score: 70".

(** A language model whose call fails for one resume. *)
Definition flaky_llm (p : JDMatcher.prompt) : outcome string :=
  if String.eqb (JDMatcher.prompt_resume_text p) "beta"
  then Raise (ExternalServiceError "rate limit")
  else Ok "Score: 70".

Definition example_data : resume_data := data_of example_text.

Definition matcher_with (llm : JDMatcher.prompt -> outcome string) : jd_matcher :=
  {| calculate_similarity := fun _ => Ok (Num (1 # 2));
     analyze_fit := JDMatcher.analyze_fit llm |}.



(** A language model that gives one resume a score of 400 digits. *)
Definition huge_llm (p : JDMatcher.prompt) : outcome string :=
  if String.eqb (JDMatcher.prompt_resume_text p) "beta"
  then Ok (String.append "Score: 1" (PyStr.join "" (repeat "0" 399)))
  else Ok "Score: 70".

(** A file system with one DOCX of two paragraphs and one text file. *)
Definition two_files : file_system :=
  {| pdf_pages := fun _ => Raise (ExternalServiceError "not a PDF");
     docx_paragraphs := fun _ => Ok ["Jane Doe"; "Python developer"];
     txt_content := fun _ => Ok "5 years of Python" |}.

Definition uploads : list Api.upload :=
  [ {| Api.upload_filename := "jane.DOCX"; Api.upload_content := "PK" |};
    {| Api.upload_filename := "notes.md"; Api.upload_content := "# notes" |};
    {| Api.upload_filename := "scan.pdf"; Api.upload_content := "%PDF" |};
    {| Api.upload_filename := "joe.txt"; Api.upload_content := "5 years of Python" |} ].

(** The temporary copy: a fresh name with the extension of the upload. *)
Definition tmp_copy (file : Api.upload) : string :=
  "/tmp/tmpk3v9x_2a" ++ snd (PyOs.splitext (Api.upload_filename file)).

(** A state of the API with a job description set. *)
Definition ready_state : Api.api_state :=
  {| Api.current_jd := job;
     Api.jd_matcher := Some (matcher_with steady_llm);
     Api.ranking_engine := Some (matcher_with steady_llm) |}.

End Examples.

(** * Properties *)

(** ** The score aggregator *)

Section Aggregator.

Import RankingEngine.
Local Open Scope Q_scope.

Variable resume_data : ResumeProcessor.resume_data.

Lemma normalized_skills_range (k : Z) :
  (0 <= k)%Z -> 0 <= Qmin (inject_Z k / 20) 1 * 100 <= 100.
Proof.
  intros Hk.
  assert (H0 : 0 <= inject_Z k) by (change 0 with (inject_Z 0); now rewrite <- Zle_Qle).
  generalize dependent (inject_Z k). intros x Hx.
  assert (Hq : 0 <= x / 20) by (apply Qle_shift_div_l; lra).
  destruct (Q.min_spec (x / 20) 1) as [[Hlt ->] | [Hle ->]]; lra.
Qed.

Lemma normalized_skills_mono (k k' : Z) :
  (k <= k')%Z -> Qmin (inject_Z k / 20) 1 <= Qmin (inject_Z k' / 20) 1.
Proof.
  intros Hk. rewrite Zle_Qle in Hk.
  apply Q.min_le_compat_r.
  apply Qmult_le_compat_r; [assumption | discriminate].
Qed.

(** C5: a judgment score and a similarity contribution in [0,100] and a
    skill count that is not negative give a composite score in [0,100]. *)
Theorem final_score_bounded (llm_score similarity : Q) (skills_count : Z) :
  0 <= llm_score <= 100 ->
  0 <= similarity * 100 <= 100 ->
  (0 <= skills_count)%Z ->
  0 <= _calculate_final_score llm_score similarity skills_count resume_data <= 100.
Proof.
  intros Hl Hs Hk.
  pose proof (normalized_skills_range skills_count Hk) as Hn.
  unfold _calculate_final_score, weight_llm_score, weight_similarity, weight_skills.
  set (n := Qmin (inject_Z skills_count / 20) 1 * 100) in *.
  set (c := similarity * 100) in *.
  setoid_replace (0.3 * similarity * 100) with (0.3 * c)
    by (unfold c; ring).
  split; lra.
Qed.

(** C6: from 20 skills on the composite score is that of 20 skills. *)
Theorem final_score_saturates (llm_score similarity : Q) (skills_count : Z) :
  (20 <= skills_count)%Z ->
  _calculate_final_score llm_score similarity skills_count resume_data ==
  _calculate_final_score llm_score similarity 20 resume_data.
Proof.
  intros Hk. rewrite Zle_Qle in Hk.
  unfold _calculate_final_score.
  assert (H1 : Qmin (inject_Z skills_count / 20) 1 == 1).
  { apply Q.min_r. generalize dependent (inject_Z skills_count). intros x Hx.
    change (inject_Z 20) with 20 in Hx. apply Qle_shift_div_l; lra. }
  assert (H2 : Qmin (inject_Z 20 / 20) 1 == 1) by reflexivity.
  rewrite H1, H2. reflexivity.
Qed.

(** C9: the composite score does not decrease when the judgment score,
    the similarity or the skill count increases, the other two fixed. *)
Theorem final_score_monotone (llm_score similarity : Q) (skills_count : Z) :
  (forall llm_score', llm_score <= llm_score' ->
     _calculate_final_score llm_score similarity skills_count resume_data <=
     _calculate_final_score llm_score' similarity skills_count resume_data) /\
  (forall similarity', similarity <= similarity' ->
     _calculate_final_score llm_score similarity skills_count resume_data <=
     _calculate_final_score llm_score similarity' skills_count resume_data) /\
  (forall skills_count', (skills_count <= skills_count')%Z ->
     _calculate_final_score llm_score similarity skills_count resume_data <=
     _calculate_final_score llm_score similarity skills_count' resume_data).
Proof.
  unfold _calculate_final_score, weight_llm_score, weight_similarity, weight_skills.
  repeat split.
  - intros l' Hl. lra.
  - intros s' Hs. lra.
  - intros k' Hk.
    pose proof (normalized_skills_mono _ _ Hk) as Hm.
    set (a := Qmin (inject_Z skills_count / 20) 1) in *.
    set (b := Qmin (inject_Z k' / 20) 1) in *.
    lra.
Qed.

End Aggregator.

Section AggregatorInstances.

Import RankingEngine Examples.
Local Open Scope Q_scope.

Lemma final_score_bounded_witness :
  0 <= 85 <= 100 /\ 0 <= 0.8 * 100 <= 100 /\ (0 <= 12)%Z /\
  0 <= _calculate_final_score 85 0.8 12 example_data <= 100.
Proof.
  assert (H1 : 0 <= 85 <= 100) by (split; discriminate).
  assert (H2 : 0 <= 0.8 * 100 <= 100) by (split; discriminate).
  assert (H3 : (0 <= 12)%Z) by discriminate.
  split; [exact H1|]. split; [exact H2|]. split; [exact H3|].
  exact (final_score_bounded example_data 85 0.8 12 H1 H2 H3).
Defined.

Lemma final_score_saturates_witness :
  (20 <= 1000)%Z /\
  _calculate_final_score 85 0.8 1000 example_data ==
  _calculate_final_score 85 0.8 20 example_data.
Proof.
  split; [discriminate|].
  apply (final_score_saturates example_data 85 0.8 1000). discriminate.
Defined.

Lemma final_score_monotone_witness :
  _calculate_final_score 70 0.5 10 example_data <=
    _calculate_final_score 80 0.5 10 example_data /\
  _calculate_final_score 70 0.5 10 example_data <=
    _calculate_final_score 70 0.6 10 example_data /\
  _calculate_final_score 70 0.5 10 example_data <=
    _calculate_final_score 70 0.5 30 example_data.
Proof.
  destruct (final_score_monotone example_data 70 0.5 10) as (H1 & H2 & H3).
  repeat split.
  - apply H1. discriminate.
  - apply H2. discriminate.
  - apply H3. discriminate.
Defined.

End AggregatorInstances.

(** ** The sort of the ranking *)

Section SortFacts.

Import RankingEngine.
Local Open Scope Q_scope.

Context {A : Type} (key : A -> pyfloat).









Lemma insert_perm (x : A) (l : list A) : Permutation (insert key x l) (x :: l).
Proof.
  induction l as [|y l IH]; simpl.
  - reflexivity.
  - destruct (flt (key y) (key x)).
    + rewrite IH. apply perm_swap.
    + reflexivity.
Qed.

Lemma stable_sort_perm (l : list A) : Permutation (stable_sort key l) l.
Proof.
  induction l as [|x l IH]; simpl.
  - reflexivity.
  - rewrite insert_perm. now constructor.
Qed.

Lemma sort_reverse_perm (l : list A) : Permutation (sort_reverse key l) l.
Proof.
  unfold sort_reverse.
  rewrite <- Permutation_rev, stable_sort_perm, <- Permutation_rev.
  reflexivity.
Qed.

Lemma list_sort_reverse_perm (with_nan : forall l, arrangement l) (l : list A) :
  Permutation (list_sort_reverse key with_nan l) l.
Proof.
  unfold list_sort_reverse. destruct (has_nan key l).
  - exact (proj2_sig (with_nan l)).
  - apply sort_reverse_perm.
Qed.













End SortFacts.

(** ** The ranking *)

Section Ranking.

Import RankingEngine.

Variable matcher : jd_matcher.
Variable job_description : string.
Variable sort_with_nan : forall l : list ranked_resume, arrangement l.

Notation rank_one := (rank_one matcher job_description).
Notation rank_loop := (rank_loop matcher job_description).
Notation rank_resumes := (rank_resumes matcher job_description sort_with_nan).
Notation succeeds := (succeeds matcher job_description).
Notation fails_with := (fails_with matcher job_description).

Lemma rank_loop_traverse (resumes : list resume) (acc : list ranked_resume) :
  rank_loop resumes acc =
  (entries <- traverse rank_one resumes ;; Ok (acc ++ entries)).
Proof.
  revert acc. induction resumes as [|r rs IH]; intros acc; simpl.
  - now rewrite app_nil_r.
  - destruct (rank_one r) as [e|x]; simpl; [|reflexivity].
    rewrite IH. destruct (traverse rank_one rs) as [es|x]; simpl; [|reflexivity].
    now rewrite <- app_assoc.
Qed.

Lemma rank_resumes_traverse (resumes : list resume) :
  rank_resumes resumes =
  (entries <- traverse rank_one resumes ;;
   Ok (list_sort_reverse final_score sort_with_nan entries)).
Proof.
  unfold RankingEngine.rank_resumes. rewrite rank_loop_traverse.
  now destruct (traverse rank_one resumes).
Qed.

Lemma rank_one_base (r : resume) (e : ranked_resume) :
  rank_one r = Ok e -> base e = r.
Proof.
  unfold RankingEngine.rank_one, final_score_call.
  destruct (calculate_similarity matcher _) as [s|]; simpl; [|discriminate].
  destruct (analyze_fit matcher _ _) as [an|]; simpl; [|discriminate].
  destruct (float_of_int (JDMatcher.score an)); simpl; [|discriminate].
  intros H. injection H as <-. reflexivity.
Qed.

Lemma traverse_base (resumes : list resume) (entries : list ranked_resume) :
  traverse rank_one resumes = Ok entries -> map base entries = resumes.
Proof.
  revert entries. induction resumes as [|r rs IH]; intros entries; simpl.
  - intros H. injection H as <-. reflexivity.
  - destruct (rank_one r) as [e|x] eqn:E; simpl; [|discriminate].
    destruct (traverse rank_one rs) as [es|x]; simpl; [|discriminate].
    intros H. injection H as <-. simpl.
    now rewrite (rank_one_base _ _ E), (IH es).
Qed.

Lemma succeeds_rank_one (r : resume) :
  succeeds r <-> exists e, rank_one r = Ok e.
Proof.
  unfold RankingEngine.succeeds, RankingEngine.rank_one, final_score_call. split.
  - intros [[s ->] (a & -> & x & Hx)]. simpl. rewrite Hx. simpl. eauto.
  - destruct (calculate_similarity matcher _) as [s|x]; simpl.
    + destruct (analyze_fit matcher _ _) as [a|x]; simpl.
      * destruct (float_of_int (JDMatcher.score a)) as [q|x] eqn:E; simpl.
        -- intros _. split; [eauto|]. exists a. split; [reflexivity|]. eauto.
        -- intros [e H]. discriminate.
      * intros [e H]. discriminate.
    + intros [e H]. discriminate.
Qed.

Lemma fails_with_rank_one (r : resume) (x : exn) :
  fails_with r x <-> rank_one r = Raise x.
Proof.
  unfold RankingEngine.fails_with, RankingEngine.rank_one, final_score_call. split.
  - intros [-> | [[s ->] [-> | (a & -> & Hx)]]]; simpl; [reflexivity..|].
    now rewrite Hx.
  - destruct (calculate_similarity matcher _) as [s|y]; simpl.
    + destruct (analyze_fit matcher _ _) as [a|y]; simpl.
      * destruct (float_of_int (JDMatcher.score a)) as [q|y] eqn:E; simpl.
        -- discriminate.
        -- intros H. injection H as ->. right. split; [eauto|]. right. eauto.
      * intros H. injection H as ->. right. split; [eauto|]. now left.
    + intros H. injection H as ->. now left.
Qed.

Lemma traverse_succeeds (resumes : list resume) :
  Forall succeeds resumes <-> exists entries, traverse rank_one resumes = Ok entries.
Proof.
  induction resumes as [|r rs IH]; simpl.
  - split; eauto.
  - split.
    + intros H. inversion H as [|? ? Hr Hrs]; subst.
      apply succeeds_rank_one in Hr. destruct Hr as [e ->].
      apply IH in Hrs. destruct Hrs as [es ->]. simpl. eauto.
    + destruct (rank_one r) as [e|x] eqn:E; simpl.
      * destruct (traverse rank_one rs) as [es|x]; simpl.
        -- intros _. constructor.
           ++ apply succeeds_rank_one. eauto.
           ++ apply IH. eauto.
        -- intros [es H]. discriminate.
      * intros [es H]. discriminate.
Qed.

Lemma traverse_first_failure (pre post : list resume) (r : resume) (x : exn) :
  Forall succeeds pre -> fails_with r x ->
  traverse rank_one (pre ++ r :: post) = Raise x.
Proof.
  intros Hpre Hr. apply fails_with_rank_one in Hr.
  induction Hpre as [|p pre Hp _ IH]; simpl.
  - now rewrite Hr.
  - apply succeeds_rank_one in Hp. destruct Hp as [e ->]. simpl.
    now rewrite IH.
Qed.

(** C1, as the code has it: a failure is not isolated. When the
    similarity or the analysis raises for a resume, or the score of its
    analysis is too large for a float, and the resumes before it succeed,
    [rank_resumes] raises that exception and ranks nothing; when no
    resume fails, the ranking has an entry for every resume. *)
Theorem rank_resumes_all_or_nothing (resumes : list resume) :
  (forall pre r post x,
      resumes = pre ++ r :: post ->
      Forall succeeds pre -> fails_with r x ->
      rank_resumes resumes = Raise x) /\
  (Forall succeeds resumes ->
   exists ranked,
     rank_resumes resumes = Ok ranked /\
     Permutation (map base ranked) resumes).
Proof.
  split.
  - intros pre r post x -> Hpre Hr.
    rewrite rank_resumes_traverse, (traverse_first_failure pre post r x Hpre Hr).
    reflexivity.
  - intros Hall. apply traverse_succeeds in Hall. destruct Hall as [entries He].
    exists (list_sort_reverse final_score sort_with_nan entries). split.
    + rewrite rank_resumes_traverse, He. reflexivity.
    + rewrite <- (traverse_base _ _ He).
      apply Permutation_map, list_sort_reverse_perm.
Qed.


End Ranking.

Section RankingInstances.

Import RankingEngine Examples.

(** The three resumes with a model that answers: beta first, then alpha
    and gamma, which tie, in the order of the input. *)
Example rank_three :
  match rank_resumes (matcher_with steady_llm) job as_it_is [alpha; beta; gamma] with
  | Ok ranked => map (fun e => (filename (base e), final_score e)) ranked
  | Raise _ => []
  end = [("beta.txt", Num 60.00%Q); ("alpha.txt", Num 50.00%Q);
         ("gamma.txt", Num 50.00%Q)].
Proof. vm_compute. reflexivity. Qed.

(** A score of 400 digits is parsed, and makes the score formula raise. *)
Example huge_score_overflows :
  rank_resumes (matcher_with huge_llm) job as_it_is [alpha; beta; gamma] =
  Raise (OverflowError "int too large to convert to float").
Proof. vm_compute. reflexivity. Qed.

Lemma rank_resumes_all_or_nothing_witness :
  Forall (succeeds (matcher_with flaky_llm) job) [alpha] /\
  fails_with (matcher_with flaky_llm) job beta (ExternalServiceError "rate limit") /\
  rank_resumes (matcher_with flaky_llm) job as_it_is [alpha; beta; gamma] =
    Raise (ExternalServiceError "rate limit") /\
  exists ranked,
    rank_resumes (matcher_with steady_llm) job as_it_is [alpha; beta; gamma] =
      Ok ranked /\
    Permutation (map base ranked) [alpha; beta; gamma].
Proof.
  assert (Ha : Forall (succeeds (matcher_with flaky_llm) job) [alpha]).
  { repeat constructor; eexists; try reflexivity.
    split; [reflexivity|]. eexists. reflexivity. }
  assert (Hb : fails_with (matcher_with flaky_llm) job beta
                 (ExternalServiceError "rate limit")).
  { right. split; [eexists; reflexivity|]. left. reflexivity. }
  split; [exact Ha|]. split; [exact Hb|]. split.
  - exact (proj1 (rank_resumes_all_or_nothing (matcher_with flaky_llm) job
                    as_it_is [alpha; beta; gamma]) [alpha] beta [gamma] _
                 eq_refl Ha Hb).
  - apply (proj2 (rank_resumes_all_or_nothing (matcher_with steady_llm) job
                    as_it_is [alpha; beta; gamma])).
    repeat constructor; eexists; try reflexivity;
      (split; [reflexivity|]; eexists; reflexivity).
Defined.

Lemma one_failure_aborts_the_batch :
  succeeds (matcher_with flaky_llm) job alpha /\
  succeeds (matcher_with flaky_llm) job gamma /\
  fails_with (matcher_with flaky_llm) job beta (ExternalServiceError "rate limit") /\
  (forall with_nan,
      rank_resumes (matcher_with flaky_llm) job with_nan [alpha; beta; gamma] =
      Raise (ExternalServiceError "rate limit")) /\
  ~ exists with_nan ranked,
      rank_resumes (matcher_with flaky_llm) job with_nan [alpha; beta; gamma] =
      Ok ranked.
Proof.
  assert (Hs : forall r, r = alpha \/ r = gamma ->
                 succeeds (matcher_with flaky_llm) job r).
  { intros r [-> | ->]; (split; [eexists; reflexivity|]);
      eexists; (split; [reflexivity|]); eexists; reflexivity. }
  split; [apply Hs; now left|]. split; [apply Hs; now right|].
  split; [right; split; [eexists; reflexivity | left; reflexivity]|].
  split.
  - intros with_nan. reflexivity.
  - intros (with_nan & ranked & H). discriminate.
Qed.



End RankingInstances.

(** ** The judgment parser *)

Section Parser.

Import JDMatcher.

Lemma star_digits (s : string) (n : nat) :
  Re.star Re.Digit (fun _ => Some O) s = Some n ->
  PyStr.all_digits (PyStr.take n s) = true.
Proof.
  revert n. induction s as [|c s IH]; intros n; simpl.
  - intros H. injection H as <-. reflexivity.
  - destruct (PyStr.is_digit c) eqn:Ec.
    + destruct (Re.star Re.Digit (fun _ => Some O) s) as [m|] eqn:Es.
      * intros H. injection H as <-. simpl.
        unfold PyStr.all_digits in *. simpl. rewrite Ec. now apply IH.
      * intros H. injection H as <-. reflexivity.
    + intros H. injection H as <-. reflexivity.
Qed.

Lemma match_digits (s : string) (n : nat) :
  Re.match_here pattern_digits s = Some n ->
  PyStr.all_digits (PyStr.take n s) = true.
Proof.
  destruct s as [|c s]; simpl; [discriminate|].
  destruct (PyStr.is_digit c) eqn:Ec; [|discriminate].
  destruct (Re.star Re.Digit (fun _ => Some O) s) as [m|] eqn:Es; simpl;
    [|discriminate].
  intros H. injection H as <-. simpl.
  unfold PyStr.all_digits. simpl. rewrite Ec.
  now apply star_digits.
Qed.

Lemma search_digits (s d : string) :
  Re.search pattern_digits s = Some d -> PyStr.all_digits d = true.
Proof.
  induction s as [|c s IH].
  - simpl. discriminate.
  - cbn [Re.search].
    destruct (Re.match_here pattern_digits (String c s)) as [n|] eqn:E.
    + intros H. injection H as <-. now apply match_digits.
    + exact IH.
Qed.

Lemma digit_value_nonneg (c : ascii) :
  PyStr.is_digit c = true -> (0 <= PyStr.digit_value c)%Z.
Proof.
  unfold PyStr.is_digit, PyStr.between, PyStr.digit_value.
  rewrite andb_true_iff, !N.leb_le.
  generalize (PyStr.code c). intros n. lia.
Qed.

Lemma int_of_digits_nonneg (d : string) :
  PyStr.all_digits d = true -> (0 <= PyStr.int_of_digits d)%Z.
Proof.
  unfold PyStr.all_digits, PyStr.int_of_digits.
  assert (H : forall l acc, (0 <= acc)%Z -> forallb PyStr.is_digit l = true ->
              (0 <= fold_left (fun a c => (10 * a + PyStr.digit_value c)%Z) l acc)%Z).
  { induction l as [|c l IH]; intros acc Hacc; cbn [fold_left forallb].
    - intros _. exact Hacc.
    - rewrite andb_true_iff. intros [Hc Hl].
      apply IH; [|exact Hl].
      pose proof (digit_value_nonneg c Hc) as Hd.
      set (dv := PyStr.digit_value c) in *. clearbody dv. lia. }
  apply H. lia.
Qed.

Lemma star_take_digits (s : string) :
  Re.star Re.Digit (fun _ => Some O) s = Some (String.length (take_digits s)).
Proof.
  induction s as [|c s IH]; simpl; [reflexivity|].
  rewrite IH. now destruct (PyStr.is_digit c).
Qed.

Lemma take_take_digits (s : string) :
  PyStr.take (String.length (take_digits s)) s = take_digits s.
Proof.
  induction s as [|c s IH]; simpl; [reflexivity|].
  destruct (PyStr.is_digit c); simpl; [now rewrite IH | reflexivity].
Qed.

(** What [re.search(r'(\d+)', s)] finds is the first run of digits. *)
Lemma search_first_run (s : string) :
  Re.search pattern_digits s = first_digit_run s.
Proof.
  induction s as [|c s IH]; [reflexivity|].
  cbn [Re.search first_digit_run].
  assert (E : Re.match_here pattern_digits (String c s) =
              if PyStr.is_digit c
              then Some (S (String.length (take_digits s))) else None).
  { simpl. rewrite star_take_digits. now destruct (PyStr.is_digit c). }
  rewrite E. destruct (PyStr.is_digit c) eqn:Ec; [|exact IH].
  cbn [PyStr.take take_digits]. now rewrite Ec, take_take_digits.
Qed.

Lemma score_of_line_nonneg (line : string) (v : Z) :
  score_of_line line = Some v -> (0 <= v)%Z.
Proof.
  unfold score_of_line.
  destruct (PyStr.startswith _ "Score:"); [|discriminate].
  destruct (first_digit_run _) as [d|] eqn:E; [|discriminate].
  destruct (String.length d <=? PyStr.int_max_str_digits)%nat; [|discriminate].
  intros H. injection H as <-.
  apply int_of_digits_nonneg. rewrite <- search_first_run in E.
  now apply search_digits in E.
Qed.

(** A line of the response changes the score exactly when it sets one. *)
Lemma parse_line_sets_score (lines : list string) (a a' : analysis) (line : string) :
  parse_line lines a line = Ok a' ->
  score a' = match score_of_line line with Some v => v | None => score a end.
Proof.
  unfold parse_line, score_of_line, PyStr.int.
  rewrite search_first_run.
  destruct (PyStr.startswith _ "Score:").
  { destruct (first_digit_run _) as [d|].
    - destruct (String.length d <=? PyStr.int_max_str_digits)%nat;
        intros H; now injection H as <-.
    - intros H. now injection H as <-. }
  destruct (PyStr.startswith _ "Strengths:").
  { destruct (PyStr.index lines _); simpl; [|discriminate].
    intros H. now injection H as <-. }
  destruct (PyStr.startswith _ "Missing:").
  { destruct (PyStr.index lines _); simpl; [|discriminate].
    intros H. now injection H as <-. }
  destruct (PyStr.startswith _ "Recommendation:").
  { intros H. now injection H as <-. }
  intros H. now injection H as <-.
Qed.

Lemma parse_lines_sets_score (lines todo : list string) (a a' : analysis) :
  parse_lines lines a todo = Ok a' ->
  (Forall (fun l => score_of_line l = None) todo /\ score a' = score a) \/
  (exists before line after,
      todo = before ++ line :: after /\
      score_of_line line = Some (score a') /\
      Forall (fun l => score_of_line l = None) after).
Proof.
  revert a. induction todo as [|l todo IH]; intros a; simpl.
  - intros H. injection H as <-. left. split; [constructor | reflexivity].
  - destruct (parse_line lines a l) as [b|x] eqn:E; simpl; [|discriminate].
    intros H. apply parse_line_sets_score in E.
    destruct (IH b H) as [[Hnone Hs] | (before & line & after & -> & Hl & Hafter)].
    + destruct (score_of_line l) as [v|] eqn:El.
      * right. exists [], l, todo. repeat split; [|exact Hnone].
        now rewrite El, Hs, E.
      * left. split; [now constructor | congruence].
    + right. exists (l :: before), line, after. now repeat split.
Qed.

Lemma index_from_found (x : string) (l : list string) (i : nat) :
  In x l -> exists k, PyStr.index_from x l i = Ok k.
Proof.
  revert i. induction l as [|y l IH]; intros i; simpl.
  - intros [].
  - intros [-> | H].
    + rewrite String.eqb_refl. eauto.
    + destruct (String.eqb y x); eauto.
Qed.

Lemma parse_line_returns (lines : list string) (a : analysis) (line : string) :
  In (PyStr.strip line) lines -> exists a', parse_line lines a line = Ok a'.
Proof.
  intros Hin. unfold parse_line.
  destruct (index_from_found _ _ 0 Hin) as [k Hk].
  unfold PyStr.index. rewrite Hk. simpl.
  destruct (PyStr.startswith _ "Score:").
  { destruct (Re.search pattern_digits _) as [d|]; [|eauto].
    destruct (PyStr.int d); eauto. }
  destruct (PyStr.startswith _ "Strengths:"); [eauto|].
  destruct (PyStr.startswith _ "Missing:"); [eauto|].
  destruct (PyStr.startswith _ "Recommendation:"); eauto.
Qed.

(** The parser returns on a text none of whose lines starts or ends with
    whitespace. *)
Lemma parse_returns_on_flush_lines (response : string) :
  Forall (fun l => PyStr.strip l = l) (PyStr.split_lines response) ->
  exists a, _parse_llm_response response = Ok a.
Proof.
  unfold _parse_llm_response.
  generalize (PyStr.split_lines response) as lines. intros lines Hflush.
  assert (H : forall todo a, incl todo lines ->
              exists a', parse_lines lines a todo = Ok a').
  { induction todo as [|l todo IH]; intros a Hincl; simpl.
    - eauto.
    - assert (Hl : In l lines) by (apply Hincl; now left).
      destruct (parse_line_returns lines a l) as [b ->].
      + rewrite Forall_forall in Hflush. now rewrite (Hflush l Hl).
      + simpl. apply IH. intros z Hz. apply Hincl. now right. }
  apply H, incl_refl.
Qed.

(** C2, at the response of the repository's own test: a label line with
    leading whitespace makes the parser raise. The stripped line is
    looked up among the unstripped lines and is not there. *)
Theorem parse_raises_on_indented_label :
  _parse_llm_response Examples.sample_response =
  Raise (ValueError "Strengths: - Strong Python experience is not in list").
Proof. vm_compute. reflexivity. Qed.

(** C3, as the code has it: the score of a returned verdict is an integer
    that is not negative, and nothing bounds it by 100. It is the number
    written by the first run of digits of the last line that sets a score
    (a stripped line that starts with [Score:] and has a run of at most
    4300 digits), and 0 when no line sets one. *)
Theorem parse_score_value (response : string) (a : analysis) :
  _parse_llm_response response = Ok a ->
  (0 <= score a)%Z /\
  ((Forall (fun l => score_of_line l = None) (PyStr.split_lines response) /\
    score a = 0%Z) \/
   (exists before line after,
       PyStr.split_lines response = before ++ line :: after /\
       score_of_line line = Some (score a) /\
       Forall (fun l => score_of_line l = None) after)).
Proof.
  unfold _parse_llm_response. intros H.
  apply parse_lines_sets_score in H.
  destruct H as [[Hnone Hs] | (before & line & after & Hsplit & Hl & Hafter)].
  - split; [rewrite Hs; simpl; lia|]. left. now split.
  - split; [exact (score_of_line_nonneg _ _ Hl)|].
    right. exists before, line, after. now repeat split.
Qed.

Lemma parse_score_value_witness :
  (0 <= 150)%Z /\
  ((Forall (fun l => score_of_line l = None)
      (PyStr.split_lines "Score: 85 of 100
Score: 150
Recommendation: Yes") /\ 150%Z = 0%Z) \/
   (exists before line after,
       PyStr.split_lines "Score: 85 of 100
Score: 150
Recommendation: Yes" = before ++ line :: after /\
       score_of_line line = Some 150%Z /\
       Forall (fun l => score_of_line l = None) after)).
Proof.
  apply (parse_score_value "Score: 85 of 100
Score: 150
Recommendation: Yes"
           {| score := 150; strengths := []; missing := [];
              recommendation := "Yes" |}).
  vm_compute. reflexivity.
Defined.

Lemma score_can_exceed_100 :
  exists a, _parse_llm_response "Score: 150" = Ok a /\
            ~ (0 <= score a <= 100)%Z.
Proof.
  eexists. split.
  - vm_compute. reflexivity.
  - simpl. lia.
Qed.

End Parser.

(** ** Feature extraction *)

Section Extraction.

Import ResumeProcessor.

Lemma distinct_NoDup (l : list string) : distinct l = true -> NoDup l.
Proof.
  induction l as [|x l IH]; simpl.
  - constructor.
  - rewrite andb_true_iff, negb_true_iff. intros [Hx Hl].
    constructor; [|now apply IH].
    intros Hin.
    assert (E : existsb (String.eqb x) l = true).
    { apply existsb_exists. exists x. split; [exact Hin|apply String.eqb_refl]. }
    congruence.
Qed.

Lemma filter_Subseq {A : Type} (f : A -> bool) (l : list A) :
  Subseq (filter f l) l.
Proof.
  induction l as [|x l IH]; simpl.
  - constructor.
  - destruct (f x); now constructor.
Qed.

Lemma common_skills_NoDup : NoDup common_skills.
Proof. apply distinct_NoDup. vm_compute. reflexivity. Qed.

Lemma common_skills_lowercase :
  Forall (fun s => In s common_skills /\ PyStr.lower s = s) common_skills.
Proof.
  apply Forall_forall. intros s Hs. split; [exact Hs|].
  assert (H : forallb (fun t => String.eqb (PyStr.lower t) t) common_skills = true)
    by (vm_compute; reflexivity).
  rewrite forallb_forall in H. apply String.eqb_eq. now apply H.
Qed.

(** C10, with the size the vocabulary has: the skills found in a text
    are the vocabulary with some terms left out, in its order; no term
    twice, every term a lowercase term of the vocabulary, at most 47 of
    them, the vocabulary having 47 terms. *)
Theorem extract_skills_invariant (text : string) :
  Subseq (_extract_skills text) common_skills /\
  NoDup (_extract_skills text) /\
  Forall (fun s => In s common_skills /\ PyStr.lower s = s) (_extract_skills text) /\
  (List.length (_extract_skills text) <= 47)%nat /\
  List.length common_skills = 47%nat.
Proof.
  unfold _extract_skills. repeat split.
  - apply filter_Subseq.
  - apply NoDup_filter, common_skills_NoDup.
  - apply Forall_forall. intros s Hs. apply filter_In in Hs.
    destruct Hs as [Hs _].
    pose proof common_skills_lowercase as H. rewrite Forall_forall in H.
    now apply H.
  - change 47%nat with (List.length common_skills). apply filter_length_le.
Qed.

Lemma skills_can_exceed_46 :
  ~ (List.length (_extract_skills Examples.all_skills_text) <= 46)%nat.
Proof. vm_compute. intros H. repeat apply le_S_n in H. inversion H. Qed.

(** C7, as the code has it: in the example text the skills found are
    python, java (inside javascript), javascript and machine learning,
    and the experience phrase, 5 years of experience, contains 5 years. *)
Theorem example_extraction :
  _extract_skills Examples.example_text =
    ["python"; "java"; "javascript"; "machine learning"] /\
  _extract_experience Examples.example_text = "5 years of experience" /\
  PyStr.contains "5 years" (_extract_experience Examples.example_text) = true.
Proof. repeat split; vm_compute; reflexivity. Qed.

Lemma example_skills_include_java :
  ~ (forall s, In s (_extract_skills Examples.example_text) <->
               In s ["python"; "javascript"; "machine learning"]).
Proof.
  intros H.
  assert (Hj : In "java" (_extract_skills Examples.example_text))
    by (vm_compute; auto).
  apply H in Hj. simpl in Hj.
  destruct Hj as [Hj | [Hj | [Hj | []]]]; discriminate.
Qed.

End Extraction.

(** ** Cosine similarity *)

Section CosineSimilarity.

Import JDMatcher.
Local Open Scope R_scope.

Lemma dot_self_nonneg (a : list R) : 0 <= dot a a.
Proof.
  induction a as [|x a IH]; simpl.
  - lra.
  - pose proof (Rle_0_sqr x) as Hx. unfold Rsqr in Hx. lra.
Qed.

Lemma dot_self_zero (a : list R) : dot a a = 0 -> Forall (fun x => x = 0) a.
Proof.
  induction a as [|x a IH]; simpl.
  - constructor.
  - intros H.
    pose proof (Rle_0_sqr x) as Hx. unfold Rsqr in Hx.
    pose proof (dot_self_nonneg a) as Ha.
    assert (Hxx : x * x = 0) by lra.
    constructor.
    + apply Rmult_integral in Hxx. now destruct Hxx.
    + apply IH. lra.
Qed.

Lemma norm_zero (a : list R) : norm a = 0 -> Forall (fun x => x = 0) a.
Proof.
  unfold norm. intros H. apply dot_self_zero.
  apply sqrt_eq_0; [apply dot_self_nonneg | exact H].
Qed.

Lemma dot_zero_l (a b : list R) : Forall (fun x => x = 0) a -> dot a b = 0.
Proof.
  intros Ha. revert b. induction Ha as [|x a Hx _ IH]; intros b; simpl.
  - reflexivity.
  - destruct b as [|y b]; [reflexivity|]. rewrite Hx, IH. lra.
Qed.

Lemma dot_comm (a b : list R) : dot a b = dot b a.
Proof.
  revert b. induction a as [|x a IH]; intros [|y b]; simpl; try reflexivity.
  rewrite IH. lra.
Qed.

(** C4, as the code has it: a vector of norm zero raises nothing, the
    result is NaN; two vectors of the same length with norms that are
    not zero give their dot product divided by the product of the norms. *)
Theorem cosine_similarity_cases (a b : list R) :
  List.length a = List.length b ->
  (norm a = 0 \/ norm b = 0 -> _cosine_similarity a b = Ok NaN) /\
  (norm a <> 0 -> norm b <> 0 ->
   _cosine_similarity a b = Ok (Finite (dot a b / (norm a * norm b)))).
Proof.
  intros Hlen.
  unfold _cosine_similarity, np_dot.
  rewrite Hlen, Nat.eqb_refl. simpl.
  split.
  - intros Hz.
    assert (Hd : dot a b = 0).
    { destruct Hz as [Hz | Hz]; apply norm_zero in Hz.
      - now apply dot_zero_l.
      - rewrite dot_comm. now apply dot_zero_l. }
    assert (Hn : norm a * norm b = 0) by (destruct Hz as [-> | ->]; lra).
    unfold np_divide. rewrite Hd, Hn.
    destruct (Req_dec_T 0 0) as [_ | Hne]; [reflexivity | now elim Hne].
  - intros Ha Hb.
    unfold np_divide.
    destruct (Req_dec_T (norm a * norm b) 0) as [Hn | _]; [|reflexivity].
    apply Rmult_integral in Hn. tauto.
Qed.

Lemma norm_3_4 : norm [3; 4] = 5.
Proof.
  unfold norm. simpl.
  replace (3 * 3 + (4 * 4 + 0)) with (5 * 5) by lra.
  apply sqrt_square. lra.
Qed.

Lemma norm_0_0 : norm [0; 0] = 0.
Proof.
  unfold norm. simpl.
  replace (0 * 0 + (0 * 0 + 0)) with 0 by lra.
  apply sqrt_0.
Qed.

Lemma cosine_similarity_cases_witness :
  _cosine_similarity [0; 0] [3; 4] = Ok NaN /\
  _cosine_similarity [3; 4] [3; 4] =
    Ok (Finite (dot [3; 4] [3; 4] / (norm [3; 4] * norm [3; 4]))).
Proof.
  split.
  - apply (cosine_similarity_cases [0; 0] [3; 4] eq_refl).
    left. exact norm_0_0.
  - apply (cosine_similarity_cases [3; 4] [3; 4] eq_refl);
      rewrite norm_3_4; lra.
Defined.

Lemma zero_norm_is_no_error :
  norm [0; 0] = 0 /\ _cosine_similarity [0; 0] [3; 4] = Ok NaN.
Proof.
  split; [exact norm_0_0|].
  unfold _cosine_similarity, np_dot. simpl.
  unfold np_divide. rewrite norm_0_0.
  replace (0 * 3 + (0 * 4 + 0)) with 0 by lra.
  replace (0 * norm [3; 4]) with 0 by lra.
  destruct (Req_dec_T 0 0) as [_ | Hne]; [reflexivity | now elim Hne].
Qed.

End CosineSimilarity.


(** ** Strings *)

Section StringFacts.

Lemma all_ascii_complete (c : ascii) : In c PyStr.all_ascii.
Proof.
  unfold PyStr.all_ascii. apply in_map_iff.
  exists (nat_of_ascii c). split.
  - apply ascii_nat_embedding.
  - apply in_seq. pose proof (nat_ascii_bounded c). lia.
Qed.

(** A test that holds of the 256 characters holds of every character. *)
Lemma for_all_ascii (f : ascii -> bool) :
  forallb f PyStr.all_ascii = true -> forall c, f c = true.
Proof.
  intros H c. rewrite forallb_forall in H. apply H, all_ascii_complete.
Qed.

Lemma lower_upper_char (c : ascii) :
  PyStr.lower_char (PyStr.upper_char c) = PyStr.lower_char c.
Proof.
  apply Ascii.eqb_eq. revert c. apply for_all_ascii. vm_compute. reflexivity.
Qed.

Lemma lower_lower_char (c : ascii) :
  PyStr.lower_char (PyStr.lower_char c) = PyStr.lower_char c.
Proof.
  apply Ascii.eqb_eq. revert c. apply for_all_ascii. vm_compute. reflexivity.
Qed.

Lemma is_digit_lower_char (c : ascii) :
  PyStr.is_digit (PyStr.lower_char c) = PyStr.is_digit c.
Proof.
  apply Bool.eqb_prop. revert c. apply for_all_ascii. vm_compute. reflexivity.
Qed.

Lemma lower_upper (s : string) : PyStr.lower (PyStr.upper s) = PyStr.lower s.
Proof.
  induction s as [|c s IH]; simpl; [reflexivity|].
  now rewrite lower_upper_char, IH.
Qed.

Lemma lower_lower (s : string) : PyStr.lower (PyStr.lower s) = PyStr.lower s.
Proof.
  induction s as [|c s IH]; simpl; [reflexivity|].
  now rewrite lower_lower_char, IH.
Qed.

Lemma lower_app (a b : string) :
  PyStr.lower (a ++ b) = (PyStr.lower a ++ PyStr.lower b)%string.
Proof.
  induction a as [|c a IH]; simpl; [reflexivity|]. now rewrite IH.
Qed.

Lemma startswith_app (s t p : string) :
  PyStr.startswith s p = true -> PyStr.startswith (s ++ t) p = true.
Proof.
  revert s. induction p as [|a p IH]; intros s.
  - intros _. now destruct (s ++ t)%string.
  - destruct s as [|b s]; simpl; [discriminate|].
    rewrite !andb_true_iff. intros [H1 H2]. split; [exact H1|now apply IH].
Qed.

Lemma contains_app_r (sub s t : string) :
  PyStr.contains sub s = true -> PyStr.contains sub (s ++ t) = true.
Proof.
  induction s as [|c s IH]; simpl.
  - rewrite orb_false_r. intros H.
    destruct sub as [|a sub]; [|discriminate].
    destruct t; reflexivity.
  - rewrite !orb_true_iff. intros [H | H].
    + left. now apply (startswith_app (String c s) t).
    + right. now apply IH.
Qed.

Lemma contains_app_l (sub s t : string) :
  PyStr.contains sub s = true -> PyStr.contains sub (t ++ s) = true.
Proof.
  intros H. induction t as [|c t IH]; simpl; [exact H|].
  rewrite IH. apply orb_true_r.
Qed.

Lemma startswith_take (n : nat) (s : string) :
  PyStr.startswith s (PyStr.take n s) = true.
Proof.
  revert s. induction n as [|n IH]; intros [|c s]; simpl; try reflexivity.
  now rewrite Ascii.eqb_refl, IH.
Qed.

Lemma contains_cons (sub s : string) (c : ascii) :
  PyStr.contains sub s = true -> PyStr.contains sub (String c s) = true.
Proof.
  intros H. cbn [PyStr.contains]. rewrite H. apply orb_true_r.
Qed.

Lemma filter_Subseq_impl {A : Type} (f g : A -> bool) (l : list A) :
  (forall x, f x = true -> g x = true) ->
  Subseq (filter f l) (filter g l).
Proof.
  intros Hfg. induction l as [|x l IH]; simpl.
  - constructor.
  - destruct (f x) eqn:Ef.
    + rewrite (Hfg x Ef). now constructor.
    + destruct (g x); [now constructor | exact IH].
Qed.

End StringFacts.

(** ** Skills and experience *)

Section SkillsAndExperience.

Import ResumeProcessor.

(** The skills found do not depend on the case of the text. *)
Theorem extract_skills_ignores_case (text : string) :
  _extract_skills (PyStr.upper text) = _extract_skills text /\
  _extract_skills (PyStr.lower text) = _extract_skills text.
Proof.
  unfold _extract_skills. now rewrite lower_upper, lower_lower.
Qed.

(** The skills found in a text are found, in the same order, in every
    text that contains it. *)
Theorem extract_skills_grows (before text after : string) :
  Subseq (_extract_skills text) (_extract_skills (before ++ text ++ after)).
Proof.
  unfold _extract_skills. apply filter_Subseq_impl.
  intros skill H. rewrite !lower_app.
  now apply contains_app_l, contains_app_r.
Qed.

Lemma star_no_digit (k : Re.cls) (rest : string -> option nat) (s : string) :
  (forall t, has_digit t = false -> rest t = None) ->
  has_digit s = false -> Re.star k rest s = None.
Proof.
  intros Hrest. induction s as [|c s IH]; intros Hs; simpl.
  - now apply Hrest.
  - assert (Hs' : has_digit s = false).
    { unfold has_digit in *. simpl in Hs. now apply orb_false_iff in Hs. }
    rewrite (IH Hs'), (Hrest _ Hs). now destruct (Re.cls_mem k c).
Qed.

Lemma match_here_no_digit (re : Re.regex) (s : string) :
  requires_digit re = true -> has_digit s = false -> Re.match_here re s = None.
Proof.
  revert s. induction re as [|[k q] re IH]; intros s Hre Hs.
  - discriminate.
  - assert (Htail : forall t, has_digit (String t s) = false -> has_digit s = false).
    { intros t H. unfold has_digit in *. simpl in H. now apply orb_false_iff in H. }
    assert (Hhead : forall c t, has_digit (String c t) = false ->
                      PyStr.is_digit c = false).
    { intros c t H. unfold has_digit in H. simpl in H. now apply orb_false_iff in H. }
    destruct (requires_digit re) eqn:Ere.
    + (* the digit is required further on *)
      assert (Hrest : forall t, has_digit t = false -> Re.match_here re t = None)
        by (intros t Ht; now apply IH).
      destruct q; cbn [Re.match_here].
      * destruct s as [|c s]; [reflexivity|].
        destruct (Re.cls_mem k c); [|reflexivity].
        rewrite Hrest; [reflexivity|]. unfold has_digit in *. simpl in Hs.
        now apply orb_false_iff in Hs.
      * destruct s as [|c s]; [now apply Hrest|].
        assert (Hs' : has_digit s = false)
          by (unfold has_digit in *; simpl in Hs; now apply orb_false_iff in Hs).
        rewrite (Hrest _ Hs'), (Hrest _ Hs). now destruct (Re.cls_mem k c).
      * now apply star_no_digit.
      * destruct s as [|c s]; [reflexivity|].
        assert (Hs' : has_digit s = false)
          by (unfold has_digit in *; simpl in Hs; now apply orb_false_iff in Hs).
        rewrite (star_no_digit k _ s Hrest Hs'). now destruct (Re.cls_mem k c).
    + (* the digit is required here *)
      unfold requires_digit in Hre, Ere. simpl in Hre. rewrite Ere in Hre.
      rewrite orb_false_r in Hre.
      destruct k; try discriminate.
      destruct q; try discriminate; cbn [Re.match_here];
        (destruct s as [|c s]; [reflexivity|]);
        simpl; now rewrite (Hhead c s Hs).
Qed.

Lemma search_no_digit (re : Re.regex) (s : string) :
  requires_digit re = true -> has_digit s = false -> Re.search re s = None.
Proof.
  intros Hre. induction s as [|c s IH]; intros Hs; cbn [Re.search];
    rewrite (match_here_no_digit re _ Hre Hs); [reflexivity|].
  apply IH. unfold has_digit in *. simpl in Hs. now apply orb_false_iff in Hs.
Qed.

Lemma has_digit_lower (s : string) : has_digit (PyStr.lower s) = has_digit s.
Proof.
  unfold has_digit. induction s as [|c s IH]; simpl; [reflexivity|].
  now rewrite is_digit_lower_char, IH.
Qed.

(** A text without a decimal digit has no experience phrase. *)
Theorem experience_needs_a_digit (text : string) :
  has_digit text = false ->
  _extract_experience text = "Experience not specified".
Proof.
  intros H. rewrite <- has_digit_lower in H.
  unfold _extract_experience, experience_patterns, first_match.
  rewrite !search_no_digit; try exact H; reflexivity.
Qed.

Lemma experience_needs_a_digit_witness :
  has_digit "Ten years of experience in sales" = false /\
  _extract_experience "Ten years of experience in sales" =
    "Experience not specified".
Proof.
  split; [reflexivity|].
  apply (experience_needs_a_digit "Ten years of experience in sales").
  reflexivity.
Defined.

Lemma search_contains (re : Re.regex) (s m : string) :
  Re.search re s = Some m -> PyStr.contains m s = true.
Proof.
  induction s as [|c s IH]; cbn [Re.search].
  - destruct (Re.match_here re "") as [n|]; [|discriminate].
    intros H. injection H as <-. now destruct n.
  - destruct (Re.match_here re (String c s)) as [n|].
    + intros H. injection H as <-.
      cbn [PyStr.contains]. now rewrite startswith_take.
    + intros H. now apply contains_cons, IH.
Qed.

(** The experience phrase is the sentinel or a piece of the lowercased
    text. *)
Theorem experience_is_from_text (text : string) :
  _extract_experience text = "Experience not specified" \/
  PyStr.contains (_extract_experience text) (PyStr.lower text) = true.
Proof.
  unfold _extract_experience.
  destruct (first_match experience_patterns (PyStr.lower text)) as [m|] eqn:E;
    [right | now left].
  unfold experience_patterns, first_match in E.
  repeat match type of E with
         | match Re.search ?p ?t with _ => _ end = _ =>
             let Es := fresh "Es" in
             destruct (Re.search p t) eqn:Es;
             [injection E as <-; now apply search_contains in Es|]
         end.
  discriminate.
Qed.

End SkillsAndExperience.

(** ** Text cleaning *)

Section Cleaning.

Import ResumeProcessor.

Lemma lstrip_flush (s : string) :
  match PyStr.lstrip s with
  | String c _ => PyStr.is_space c = false
  | EmptyString => True
  end.
Proof.
  induction s as [|c s IH]; simpl; [exact I|].
  destruct (PyStr.is_space c) eqn:E; [exact IH | exact E].
Qed.

Lemma rstrip_head (c : ascii) (s : string) :
  PyStr.is_space c = false ->
  exists t, PyStr.rstrip (String c s) = String c t.
Proof.
  intros Hc. simpl. destruct (PyStr.rstrip s); [rewrite Hc|]; eauto.
Qed.

Lemma rstrip_rstrip (s : string) : PyStr.rstrip (PyStr.rstrip s) = PyStr.rstrip s.
Proof.
  induction s as [|c s IH]; simpl; [reflexivity|].
  destruct (PyStr.rstrip s) as [|d u] eqn:E.
  - destruct (PyStr.is_space c) eqn:Ec; simpl; [reflexivity|now rewrite Ec].
  - cbn [PyStr.rstrip]. cbn [PyStr.rstrip] in IH. now rewrite IH.
Qed.

Lemma strip_strip (s : string) : PyStr.strip (PyStr.strip s) = PyStr.strip s.
Proof.
  unfold PyStr.strip.
  pose proof (lstrip_flush s) as H.
  destruct (PyStr.lstrip s) as [|c t] eqn:E; [reflexivity|].
  destruct (rstrip_head c t H) as [u Hu]. rewrite Hu.
  cbn [PyStr.lstrip]. rewrite H, <- Hu. apply rstrip_rstrip.
Qed.

Lemma all_chars_lstrip (f : ascii -> bool) (s : string) :
  all_chars f s = true -> all_chars f (PyStr.lstrip s) = true.
Proof.
  unfold all_chars. induction s as [|c s IH]; simpl; [reflexivity|].
  rewrite andb_true_iff. intros [Hc Hs].
  destruct (PyStr.is_space c); [now apply IH|].
  simpl. now rewrite Hc, Hs.
Qed.

Lemma all_chars_rstrip (f : ascii -> bool) (s : string) :
  all_chars f s = true -> all_chars f (PyStr.rstrip s) = true.
Proof.
  unfold all_chars. induction s as [|c s IH]; simpl; [reflexivity|].
  rewrite andb_true_iff. intros [Hc Hs]. specialize (IH Hs).
  destruct (PyStr.rstrip s) as [|d u].
  - destruct (PyStr.is_space c); simpl; [reflexivity|now rewrite Hc].
  - cbn [list_ascii_of_string forallb] in *. now rewrite Hc, IH.
Qed.

Lemma length_lstrip (s : string) :
  (String.length (PyStr.lstrip s) <= String.length s)%nat.
Proof.
  induction s as [|c s IH]; simpl; [lia|].
  destruct (PyStr.is_space c); simpl; lia.
Qed.

Lemma length_rstrip (s : string) :
  (String.length (PyStr.rstrip s) <= String.length s)%nat.
Proof.
  induction s as [|c s IH]; simpl; [lia|].
  destruct (PyStr.rstrip s); [destruct (PyStr.is_space c)|]; simpl in *; lia.
Qed.

Lemma star_returns (k : Re.cls) (s : string) :
  exists n, Re.star k (fun _ => Some O) s = Some n.
Proof.
  induction s as [|c s [n IH]]; simpl; [eauto|].
  rewrite IH. destruct (Re.cls_mem k c); eauto.
Qed.

Lemma match_spaces (c : ascii) (s : string) :
  PyStr.is_space c = true ->
  exists n, Re.match_here pattern_spaces (String c s) = Some (S n).
Proof.
  intros Hc. simpl. rewrite Hc.
  destruct (star_returns Re.Space s) as [n ->]. simpl. eauto.
Qed.

(** After [re.sub(r'\s+', ' ', s)] the only whitespace is the space. *)
Lemma sub_spaces_chars (s : string) (skip : nat) :
  all_chars (fun c => Ascii.eqb c " " || negb (PyStr.is_space c))
    (Re.sub_from pattern_spaces " " s skip) = true.
Proof.
  unfold all_chars. revert skip.
  induction s as [|c s IH]; intros skip; [reflexivity|].
  cbn [Re.sub_from]. destruct skip as [|k]; [|apply IH].
  destruct (PyStr.is_space c) eqn:Ec.
  - destruct (match_spaces c s Ec) as [n ->]. simpl. apply IH.
  - assert (E : Re.match_here pattern_spaces (String c s) = None)
      by (simpl; now rewrite Ec).
    rewrite E. simpl. rewrite Ec, orb_true_r. apply IH.
Qed.

Lemma length_sub_spaces (s : string) (skip : nat) :
  (String.length (Re.sub_from pattern_spaces " " s skip) <= String.length s)%nat.
Proof.
  revert skip. induction s as [|c s IH]; intros skip; [simpl; lia|].
  cbn [Re.sub_from]. destruct skip as [|k].
  - destruct (Re.match_here pattern_spaces (String c s)) as [[|n]|].
    + specialize (IH 0%nat). simpl. lia.
    + specialize (IH n). simpl. lia.
    + specialize (IH 0%nat). simpl. lia.
  - specialize (IH k). simpl. lia.
Qed.

Lemma delete_unkept_chars (s : string) :
  all_chars (fun c => Ascii.eqb c " " || negb (PyStr.is_space c)) s = true ->
  all_chars clean_char (delete_unkept s) = true.
Proof.
  unfold all_chars. induction s as [|c s IH]; simpl; [reflexivity|].
  rewrite andb_true_iff. intros [Hc Hs].
  destruct (is_kept c) eqn:Ek; [|now apply IH].
  simpl. rewrite (IH Hs), andb_true_r.
  unfold is_kept in Ek. unfold clean_char.
  destruct (PyStr.is_word c); [reflexivity|]. simpl in *.
  destruct (Ascii.eqb c " "); [reflexivity|]. simpl in *.
  apply negb_true_iff in Hc. now rewrite Hc in Ek.
Qed.

Lemma length_delete_unkept (s : string) :
  (String.length (delete_unkept s) <= String.length s)%nat.
Proof.
  induction s as [|c s IH]; simpl; [lia|].
  destruct (is_kept c); simpl; lia.
Qed.

(** A cleaned text has only letters, digits, underscores, spaces and the
    marks [. , ! ? ; :] (no tab, no newline), and neither starts nor ends
    with a space. *)
Theorem clean_text_shape (text : string) :
  all_chars clean_char (_clean_text text) = true /\
  PyStr.strip (_clean_text text) = _clean_text text.
Proof.
  unfold _clean_text. split.
  - unfold PyStr.strip. apply all_chars_rstrip, all_chars_lstrip.
    apply delete_unkept_chars, sub_spaces_chars.
  - apply strip_strip.
Qed.

(** Cleaning never makes a text longer. *)
Theorem clean_text_no_longer (text : string) :
  (String.length (_clean_text text) <= String.length text)%nat.
Proof.
  unfold _clean_text, PyStr.strip, Re.sub.
  pose proof (length_sub_spaces text 0) as H1.
  pose proof (length_delete_unkept (Re.sub_from pattern_spaces " " text 0)) as H2.
  pose proof (length_lstrip (delete_unkept (Re.sub_from pattern_spaces " " text 0))) as H3.
  pose proof (length_rstrip
                (PyStr.lstrip (delete_unkept (Re.sub_from pattern_spaces " " text 0))))
    as H4.
  lia.
Qed.

End Cleaning.

(** ** Education markers and file formats *)

Section EducationAndFormats.

Import ResumeProcessor.

Lemma ignorecase_mem (l c : ascii) :
  ignorecase_ok l = true ->
  Re.cls_mem (fst (ignorecase l)) c = Ascii.eqb l (PyStr.lower_char c).
Proof.
  intros H. apply Bool.eqb_prop. revert c. now apply for_all_ascii.
Qed.

Lemma match_ignorecase (p s : string) :
  all_chars ignorecase_ok p = true ->
  Re.match_here (map ignorecase (list_ascii_of_string p)) s =
  if PyStr.startswith (PyStr.lower s) p then Some (String.length p) else None.
Proof.
  unfold all_chars. revert s.
  induction p as [|l p IH]; intros s Hp.
  - now destruct s.
  - simpl in Hp. apply andb_true_iff in Hp. destruct Hp as [Hl Hp].
    cbn [list_ascii_of_string map Re.match_here].
    unfold ignorecase at 1.
    destruct s as [|c s]; [reflexivity|].
    pose proof (ignorecase_mem l c Hl) as Hc. unfold ignorecase in Hc.
    cbn [fst] in Hc. rewrite Hc.
    cbn [PyStr.lower PyStr.startswith String.length].
    destruct (Ascii.eqb l (PyStr.lower_char c)); [|reflexivity].
    rewrite (IH s Hp). cbn [andb].
    now destruct (PyStr.startswith (PyStr.lower s) p).
Qed.

Lemma search_ignorecase (p s : string) :
  all_chars ignorecase_ok p = true ->
  match Re.search (map ignorecase (list_ascii_of_string p)) s with
  | Some _ => true
  | None => false
  end = PyStr.contains p (PyStr.lower s).
Proof.
  intros Hp. induction s as [|c s IH]; cbn [Re.search].
  - rewrite (match_ignorecase p "" Hp). cbn [PyStr.lower PyStr.contains].
    rewrite orb_false_r. now destruct (PyStr.startswith "" p).
  - rewrite (match_ignorecase p (String c s) Hp).
    cbn [PyStr.lower PyStr.contains].
    change (String (PyStr.lower_char c) (PyStr.lower s))
      with (PyStr.lower (String c s)).
    destruct (PyStr.startswith (PyStr.lower (String c s)) p); [reflexivity|].
    exact IH.
Qed.

Lemma education_keywords_compile :
  Forall (fun keyword =>
            compile_ignorecase keyword =
              map ignorecase (list_ascii_of_string (unescape keyword)) /\
            all_chars ignorecase_ok (unescape keyword) = true)
         education_keywords.
Proof. repeat constructor; vm_compute; reflexivity. Qed.

(** The education markers of a text are the keywords that occur in it,
    whatever the case of the text, also inside a word. *)
Theorem education_markers (text keyword : string) :
  In keyword (_extract_education text) <->
  In keyword education_keywords /\
  PyStr.contains (unescape keyword) (PyStr.lower text) = true.
Proof.
  unfold _extract_education. rewrite filter_In.
  split; intros [Hin H]; (split; [exact Hin|]);
    pose proof education_keywords_compile as Hk;
    rewrite Forall_forall in Hk; destruct (Hk keyword Hin) as [Hc Ho];
    rewrite Hc in *; now rewrite search_ignorecase in *.
Qed.

Lemma education_NoDup : NoDup education_keywords.
Proof. apply distinct_NoDup. vm_compute. reflexivity. Qed.

(** The education markers are keywords of the list, in its order, none
    twice. *)
Theorem education_is_ordered (text : string) :
  Subseq (_extract_education text) education_keywords /\
  NoDup (_extract_education text).
Proof.
  unfold _extract_education. split.
  - apply filter_Subseq.
  - apply NoDup_filter, education_NoDup.
Qed.

(** [validate_file_format] refuses a path exactly when [extract_text]
    raises its unsupported-format error for it, whatever the files hold. *)
Theorem unsupported_format_agrees (path : string) :
  FileParser.validate_file_format path = false <->
  forall fs,
    extract_text fs path =
    Raise (ValueError ("Unsupported file format: " ++
                       PyStr.lower (snd (PyOs.splitext path)))).
Proof.
  unfold FileParser.validate_file_format, FileParser.get_supported_formats,
    extract_text.
  cbn [existsb].
  set (ext := PyStr.lower (snd (PyOs.splitext path))).
  rewrite !(String.eqb_sym ext).
  split.
  - intros H fs. rewrite orb_false_r in H.
    apply orb_false_iff in H. destruct H as [H1 H].
    apply orb_false_iff in H. destruct H as [H2 H3].
    now rewrite H1, H2, H3.
  - intros H. specialize (H empty_files).
    destruct (String.eqb ".pdf" ext); [discriminate|].
    destruct (String.eqb ".docx" ext); [discriminate|].
    destruct (String.eqb ".txt" ext); [discriminate|].
    reflexivity.
Qed.

Lemma split_lines_app (p rest : string) :
  all_chars (fun c => negb (Ascii.eqb c PyStr.newline)) p = true ->
  PyStr.split_lines (p ++ String PyStr.newline rest) = p :: PyStr.split_lines rest.
Proof.
  unfold all_chars. induction p as [|c p IH]; simpl.
  - intros _. reflexivity.
  - rewrite andb_true_iff, negb_true_iff. intros [Hc Hp].
    change (Ascii.eqb c "010") with (Ascii.eqb c PyStr.newline).
    rewrite Hc. now rewrite (IH Hp).
Qed.

Lemma split_join_lines (pieces : list string) :
  Forall (fun p => all_chars (fun c => negb (Ascii.eqb c PyStr.newline)) p = true)
         pieces ->
  PyStr.split_lines (join_lines pieces) = pieces ++ [EmptyString].
Proof.
  induction 1 as [|p ps Hp _ IH]; [reflexivity|].
  cbn [join_lines]. rewrite (split_lines_app p _ Hp), IH. reflexivity.
Qed.

(** The text of a DOCX file is its paragraphs, each ended by a newline:
    when no paragraph has a newline, splitting the text at the newlines
    gives the paragraphs back, and an empty last piece. *)
Theorem docx_text_splits_back (fs : file_system) (path : string)
        (paragraphs : list string) :
  docx_paragraphs fs path = Ok paragraphs ->
  Forall (fun p => all_chars (fun c => negb (Ascii.eqb c PyStr.newline)) p = true)
         paragraphs ->
  exists text,
    _extract_from_docx fs path = Ok text /\
    PyStr.split_lines text = paragraphs ++ [EmptyString].
Proof.
  intros Hd Hp. unfold _extract_from_docx. rewrite Hd. simpl.
  eexists. split; [reflexivity|]. now apply split_join_lines.
Qed.

End EducationAndFormats.

(** ** More on the judgment parser *)

Section ParserMore.

Import JDMatcher.

Lemma index_raises (lines : list string) (x : string) (i : nat) :
  raises (PyStr.index_from x lines i) = negb (existsb (String.eqb x) lines).
Proof.
  revert i. induction lines as [|y lines IH]; intros i; simpl; [reflexivity|].
  rewrite (String.eqb_sym x y).
  destruct (String.eqb y x); [reflexivity|]. apply IH.
Qed.

Lemma parse_line_raises (lines : list string) (a : analysis) (line : string) :
  raises (parse_line lines a line) = lost_label lines line.
Proof.
  unfold parse_line, lost_label, looks_up, PyStr.index.
  pose proof (index_raises lines (PyStr.strip line) 0) as Hi.
  destruct (PyStr.startswith (PyStr.strip line) "Score:").
  { simpl. destruct (Re.search pattern_digits _) as [d|]; [|reflexivity].
    now destruct (PyStr.int d). }
  destruct (PyStr.startswith (PyStr.strip line) "Strengths:").
  { simpl. rewrite <- Hi. now destruct (PyStr.index_from _ lines 0). }
  destruct (PyStr.startswith (PyStr.strip line) "Missing:").
  { simpl. rewrite <- Hi. now destruct (PyStr.index_from _ lines 0). }
  simpl. now destruct (PyStr.startswith (PyStr.strip line) "Recommendation:").
Qed.

Lemma parse_lines_raises (lines todo : list string) (a : analysis) :
  raises (parse_lines lines a todo) = existsb (lost_label lines) todo.
Proof.
  revert a. induction todo as [|l todo IH]; intros a; simpl; [reflexivity|].
  rewrite <- (parse_line_raises lines a l).
  destruct (parse_line lines a l) as [b|x]; simpl; [apply IH | reflexivity].
Qed.

(** The parser raises exactly on a text with a [Strengths:] or [Missing:]
    line that has whitespace around it, unless the stripped line is also a
    line of the text. *)
Theorem parse_raises_exactly (response : string) :
  raises (_parse_llm_response response) =
  existsb (lost_label (PyStr.split_lines response)) (PyStr.split_lines response).
Proof. unfold _parse_llm_response. apply parse_lines_raises. Qed.

Lemma collect_bullets_stripped (ls : list string) :
  Forall (fun b => PyStr.strip b = b) (collect_bullets ls).
Proof.
  induction ls as [|l ls IH]; cbn [collect_bullets]; [constructor|].
  destruct (String.eqb (PyStr.strip l) ""); [exact IH|].
  destruct (PyStr.startswith_any (PyStr.strip l) section_labels); [constructor|].
  destruct (PyStr.startswith_any (PyStr.strip l) bullet_markers);
    (constructor; [apply strip_strip | exact IH]).
Qed.

Lemma parse_line_stripped (lines : list string) (a a' : analysis) (line : string) :
  stripped_verdict a -> parse_line lines a line = Ok a' -> stripped_verdict a'.
Proof.
  intros (Hr & Hs & Hm). unfold parse_line, _extract_bullet_points.
  destruct (PyStr.startswith _ "Score:").
  { destruct (Re.search pattern_digits _) as [d|];
      [destruct (PyStr.int d)|]; intros H; injection H as <-;
      repeat split; assumption. }
  destruct (PyStr.startswith _ "Strengths:").
  { destruct (PyStr.index lines _); simpl; [|discriminate].
    intros H. injection H as <-.
    repeat split; try assumption. apply collect_bullets_stripped. }
  destruct (PyStr.startswith _ "Missing:").
  { destruct (PyStr.index lines _); simpl; [|discriminate].
    intros H. injection H as <-.
    repeat split; try assumption. apply collect_bullets_stripped. }
  destruct (PyStr.startswith _ "Recommendation:");
    intros H; injection H as <-; repeat split; try assumption.
  apply strip_strip.
Qed.

(** The recommendation and the bullets of a returned verdict have no
    whitespace around them. *)
Theorem parse_gives_stripped_fields (response : string) (a : analysis) :
  _parse_llm_response response = Ok a -> stripped_verdict a.
Proof.
  unfold _parse_llm_response.
  generalize (PyStr.split_lines response) at 1 as lines.
  assert (H0 : stripped_verdict default_analysis)
    by (repeat split; constructor).
  revert H0. generalize default_analysis as a0.
  generalize (PyStr.split_lines response) as todo.
  induction todo as [|l todo IH]; intros a0 H0 lines; simpl.
  - intros H. now injection H as <-.
  - destruct (parse_line lines a0 l) as [b|x] eqn:E; simpl; [|discriminate].
    apply IH. exact (parse_line_stripped _ _ _ _ H0 E).
Qed.



End ParserMore.

Section ParserMoreInstances.

Import JDMatcher.

Lemma parse_gives_stripped_fields_witness :
  stripped_verdict
    {| score := 0; strengths := ["fast"; "kind"]; missing := [];
       recommendation := "Strong Yes" |}.
Proof.
  apply (parse_gives_stripped_fields
           (String.concat (String PyStr.newline EmptyString)
              ["Strengths:"; "  - fast  "; " kind"; "Recommendation:   Strong Yes  "])).
  vm_compute. reflexivity.
Defined.

End ParserMoreInstances.

(** ** More on the cosine similarity *)

Section CosineMore.

Import JDMatcher.
Local Open Scope R_scope.

Lemma le_of_squares (u v : R) : 0 <= v -> u * u <= v * v -> u <= v.
Proof.
  intros Hv H. destruct (Rle_dec u v) as [Hle | Hgt]; [exact Hle|].
  apply Rnot_le_lt in Hgt. nra.
Qed.

(** Cauchy-Schwarz. *)
Lemma dot_squared (a b : list R) :
  dot a b * dot a b <= dot a a * dot b b.
Proof.
  revert b. induction a as [|x a IH]; intros [|y b]; simpl; try lra.
  specialize (IH b).
  pose proof (dot_self_nonneg a) as HA.
  pose proof (dot_self_nonneg b) as HB.
  set (d := dot a b) in *. set (A := dot a a) in *. set (B := dot b b) in *.
  assert (Hp : 0 <= x * x * B + y * y * A) by nra.
  assert (Hu : 2 * x * y * d <= x * x * B + y * y * A).
  { apply le_of_squares; [exact Hp|].
    assert (H1 : 0 <= (x * y) * (x * y) * (A * B - d * d)).
    { apply Rmult_le_pos; [apply Rle_0_sqr | lra]. }
    assert (H2 : 0 <= (x * x * B - y * y * A) * (x * x * B - y * y * A))
      by apply Rle_0_sqr.
    nra. }
  nra.
Qed.

Lemma norm_nonneg (a : list R) : 0 <= norm a.
Proof. apply sqrt_pos. Qed.

Lemma norm_squared (a : list R) : norm a * norm a = dot a a.
Proof. apply sqrt_sqrt, dot_self_nonneg. Qed.

Lemma np_dot_sym (a b : list R) : np_dot a b = np_dot b a.
Proof.
  unfold np_dot. rewrite (Nat.eqb_sym (List.length a)), (dot_comm a b).
  reflexivity.
Qed.

(** The similarity of [a] and [b] is that of [b] and [a]. *)
Theorem cosine_similarity_symmetric (a b : list R) :
  _cosine_similarity a b = _cosine_similarity b a.
Proof.
  unfold _cosine_similarity. rewrite (np_dot_sym a b).
  now rewrite (Rmult_comm (norm a)).
Qed.

(** A vector of norm not zero has similarity 1 with itself. *)
Theorem cosine_similarity_self (a : list R) :
  norm a <> 0 -> _cosine_similarity a a = Ok (Finite 1).
Proof.
  intros Hn. unfold _cosine_similarity, np_dot.
  rewrite Nat.eqb_refl. simpl. unfold np_divide.
  destruct (Req_dec_T (norm a * norm a) 0) as [Hz | _].
  - apply Rmult_integral in Hz. tauto.
  - rewrite norm_squared. f_equal. f_equal. field.
    rewrite <- norm_squared. intros Hz. apply Rmult_integral in Hz. tauto.
Qed.

Lemma finite_quotient_bounded (a b : list R) (x : R) :
  np_divide (dot a b) (norm a * norm b) = Finite x -> -1 <= x <= 1.
Proof.
  unfold np_divide.
  destruct (Req_dec_T (norm a * norm b) 0) as [Hz | Hnz].
  { destruct (Req_dec_T (dot a b) 0); [discriminate|].
    destruct (Rlt_dec (dot a b) 0); discriminate. }
  intros H. injection H as <-.
  pose proof (norm_nonneg a) as Ha. pose proof (norm_nonneg b) as Hb.
  assert (Hp : 0 < norm a * norm b).
  { destruct (Rmult_le_pos _ _ Ha Hb) as [Hlt | Heq]; [exact Hlt|].
    now elim Hnz. }
  pose proof (dot_squared a b) as Hcs.
  rewrite <- (norm_squared a), <- (norm_squared b) in Hcs.
  set (n := norm a * norm b) in *. set (d := dot a b) in *.
  assert (Hsq : d * d <= n * n) by (unfold n; nra).
  assert (Hle : d <= n) by (apply le_of_squares; [lra | exact Hsq]).
  assert (Hge : - d <= n) by (apply le_of_squares; [lra | nra]).
  split.
  - apply Rmult_le_reg_r with n; [exact Hp|].
    unfold Rdiv. rewrite Rmult_assoc, Rinv_l by lra. lra.
  - apply Rmult_le_reg_r with n; [exact Hp|].
    unfold Rdiv. rewrite Rmult_assoc, Rinv_l by lra. lra.
Qed.

(** A similarity that is a number lies between -1 and 1. *)
Theorem cosine_similarity_bounded (a b : list R) (x : R) :
  _cosine_similarity a b = Ok (Finite x) -> -1 <= x <= 1.
Proof.
  unfold _cosine_similarity.
  destruct (np_dot a b) as [d|e] eqn:E; simpl; [|discriminate].
  unfold np_dot in E.
  destruct (Nat.eqb (List.length a) (List.length b)); [|discriminate].
  injection E as <-. intros H. injection H as H.
  now apply finite_quotient_bounded in H.
Qed.

(** [calculate_similarity] returns exactly when the job description is set,
    the embedding of the text is obtained and the two embeddings have the
    same length; what it returns is NaN or a number between -1 and 1. *)
Theorem calculate_similarity_returns (self : matcher) (resume_text : string) :
  ((exists v, calculate_similarity self resume_text = Ok v) <->
   (exists jd_embedding resume_embedding,
       vector_store self = Some jd_embedding /\
       embed_query self resume_text = Ok resume_embedding /\
       List.length resume_embedding = List.length jd_embedding)) /\
  (forall v, calculate_similarity self resume_text = Ok v ->
     v = NaN \/ exists x, v = Finite x /\ -1 <= x <= 1).
Proof.
  unfold calculate_similarity, _cosine_similarity, np_dot.
  destruct (vector_store self) as [jd|].
  2:{ split; [split|]; [intros [v H] | intros (j & e & H & _) | intros v H];
      discriminate. }
  destruct (embed_query self resume_text) as [e|x]; simpl.
  2:{ split; [split|]; [intros [v H] | intros (j & e & _ & H & _) | intros v H];
      discriminate. }
  destruct (Nat.eqb (List.length e) (List.length jd)) eqn:El; simpl.
  - apply Nat.eqb_eq in El. split; [split|].
    + intros _. exists jd, e. auto.
    + intros _. eauto.
    + intros v H. injection H as <-.
      destruct (np_divide (dot e jd) (norm e * norm jd)) as [x | neg |] eqn:Ed.
      * right. exists x. split; [reflexivity|].
        now apply finite_quotient_bounded in Ed.
      * exfalso. unfold np_divide in Ed.
        destruct (Req_dec_T (norm e * norm jd) 0) as [Hz | Hnz]; [|discriminate].
        destruct (Req_dec_T (dot e jd) 0) as [Hd | Hd]; [discriminate|].
        apply Hd. apply Rmult_integral in Hz.
        destruct Hz as [Hz | Hz]; apply norm_zero in Hz.
        -- now apply dot_zero_l.
        -- rewrite dot_comm. now apply dot_zero_l.
      * now left.
  - apply Nat.eqb_neq in El. split; [split|].
    + intros [v H]. discriminate.
    + intros (j & e' & Hj & He & Hl). injection Hj as <-. injection He as <-.
      contradiction.
    + intros v H. discriminate.
Qed.

End CosineMore.

Section CosineMoreInstances.

Import JDMatcher.
Local Open Scope R_scope.

Lemma cosine_similarity_self_witness :
  _cosine_similarity [3; 4] [3; 4] = Ok (Finite 1).
Proof.
  apply (cosine_similarity_self [3; 4]). rewrite norm_3_4. lra.
Defined.

Lemma cosine_3_4_4_3 :
  _cosine_similarity [3; 4] [4; 3] = Ok (Finite (24 / 25)).
Proof.
  unfold _cosine_similarity, np_dot. simpl. unfold np_divide.
  assert (H : norm [4; 3] = 5).
  { unfold norm. simpl. replace (4 * 4 + (3 * 3 + 0)) with (5 * 5) by lra.
    apply sqrt_square. lra. }
  rewrite norm_3_4, H.
  destruct (Req_dec_T (5 * 5) 0) as [Hz | _]; [lra|].
  f_equal. f_equal. lra.
Qed.

Lemma cosine_similarity_bounded_witness : -1 <= 24 / 25 <= 1.
Proof.
  exact (cosine_similarity_bounded [3; 4] [4; 3] (24 / 25) cosine_3_4_4_3).
Defined.

End CosineMoreInstances.

(** ** Embedding utilities *)

Section EmbeddingFacts.

Import JDMatcher Embeddings.
Local Open Scope R_scope.

Lemma dot_scale_l (n : R) (a b : list R) :
  dot (map (fun x => x / n) a) b = dot a b / n.
Proof.
  revert b. induction a as [|x a IH]; intros [|y b]; simpl;
    try (unfold Rdiv; now rewrite Rmult_0_l).
  rewrite IH. unfold Rdiv. ring.
Qed.

Lemma dot_scale (n : R) (a : list R) :
  dot (map (fun x => x / n) a) (map (fun x => x / n) a) = dot a a / n / n.
Proof.
  rewrite dot_scale_l, (dot_comm a), dot_scale_l. reflexivity.
Qed.

Lemma norm_scaled (a : list R) :
  norm a <> 0 -> norm (map (fun x => x / norm a) a) = 1.
Proof.
  intros Hn. unfold norm at 1. rewrite dot_scale, <- norm_squared.
  replace (norm a * norm a / norm a / norm a) with 1 by (field; exact Hn).
  apply sqrt_1.
Qed.

(** A vector of norm not zero is normalized to a vector of norm 1. *)
Theorem normalize_vector_unit (vector : list R) :
  norm vector <> 0 -> norm (normalize_vector vector) = 1.
Proof.
  intros Hn. unfold normalize_vector.
  destruct (Req_dec_T (norm vector) 0) as [Hz | _]; [contradiction|].
  now apply norm_scaled.
Qed.

(** Normalizing a normalized vector changes nothing. *)
Theorem normalize_vector_idempotent (vector : list R) :
  normalize_vector (normalize_vector vector) = normalize_vector vector.
Proof.
  destruct (Req_dec_T (norm vector) 0) as [Hz | Hnz].
  - assert (E : normalize_vector vector = vector).
    { unfold normalize_vector.
      destruct (Req_dec_T (norm vector) 0); [reflexivity | contradiction]. }
    now rewrite !E.
  - assert (E : normalize_vector vector = map (fun x => x / norm vector) vector).
    { unfold normalize_vector.
      destruct (Req_dec_T (norm vector) 0); [contradiction | reflexivity]. }
    rewrite E. unfold normalize_vector. rewrite (norm_scaled vector Hnz).
    destruct (Req_dec_T 1 0) as [H | _]; [lra|].
    etransitivity; [|apply map_id].
    apply map_ext. intros x. field.
Qed.

(** The similarity of two vectors is that of the first one normalized and
    the second. *)
Theorem normalize_vector_keeps_similarity (a b : list R) :
  _cosine_similarity (normalize_vector a) b = _cosine_similarity a b.
Proof.
  unfold normalize_vector.
  destruct (Req_dec_T (norm a) 0) as [Hz | Hnz]; [reflexivity|].
  unfold _cosine_similarity, np_dot. rewrite length_map.
  destruct (Nat.eqb (List.length a) (List.length b)); [|reflexivity].
  simpl. f_equal.
  rewrite (norm_scaled a Hnz), dot_scale_l.
  unfold np_divide.
  destruct (Req_dec_T (1 * norm b) 0) as [Hb | Hb];
    destruct (Req_dec_T (norm a * norm b) 0) as [Hab | Hab].
  - assert (Hd : dot a b = 0).
    { rewrite dot_comm. apply dot_zero_l, norm_zero. lra. }
    rewrite Hd. unfold Rdiv. rewrite Rmult_0_l.
    destruct (Req_dec_T 0 0); [reflexivity | contradiction].
  - exfalso. apply Hab. replace (norm b) with 0 by lra. ring.
  - exfalso. apply Rmult_integral in Hab. destruct Hab; [contradiction | lra].
  - f_equal. field. split; [lra | exact Hnz].
Qed.

End EmbeddingFacts.

Section BatchFacts.

Import Embeddings.

Context {V : Type}.
Variable texts : list string.

Lemma firstn_plus {A : Type} (a b : nat) (l : list A) :
  firstn (a + b) l = firstn a l ++ firstn b (skipn a l).
Proof.
  revert l. induction a as [|a IH]; intros l; [reflexivity|].
  destruct l as [|x l]; simpl.
  - now rewrite firstn_nil.
  - now rewrite IH.
Qed.

Lemma range_step_covers (stop step : nat) :
  (0 < step)%nat -> (stop <= (stop + step - 1) / step * step)%nat.
Proof.
  intros Hs.
  pose proof (Nat.div_mod_eq (stop + step - 1) step) as H.
  pose proof (Nat.mod_upper_bound (stop + step - 1) step) as Hm.
  nia.
Qed.

Lemma range_step_below (stop step i : nat) :
  (0 < step)%nat -> In i (range_step stop step) -> (i < stop)%nat.
Proof.
  intros Hs. unfold range_step. rewrite in_map_iff.
  intros (k & <- & Hk). apply in_seq in Hk.
  pose proof (Nat.div_mod_eq (stop + step - 1) step) as H.
  pose proof (Nat.mod_upper_bound (stop + step - 1) step) as Hm.
  nia.
Qed.

Lemma batch_loop_pointwise (f : string -> V)
      (embed_documents : list string -> outcome (list V)) (size : nat) :
  (forall batch, embed_documents batch = Ok (map f batch)) ->
  forall count first embeddings,
    batch_loop texts embed_documents size
      (map (fun k => k * size)%nat (seq first count)) embeddings =
    Ok (embeddings ++
        map f (firstn (count * size) (skipn (first * size) texts))).
Proof.
  intros He. induction count as [|count IH]; intros first embeddings.
  - simpl. now rewrite app_nil_r.
  - cbn [seq map batch_loop]. rewrite He. cbn [bind].
    rewrite IH, <- app_assoc, <- map_app. do 3 f_equal.
    replace (S first * size)%nat with (size + first * size)%nat by lia.
    rewrite <- skipn_skipn.
    replace (S count * size)%nat with (size + count * size)%nat by lia.
    now rewrite firstn_plus.
Qed.

(** With an embedder that embeds each text on its own, batching changes
    nothing: the result is the embedding of every text, in order, for
    every batch size above zero. *)
Theorem batch_process_embeddings_pointwise (f : string -> V)
        (embed_documents : list string -> outcome (list V)) (batch_size : Z) :
  (0 < batch_size)%Z ->
  (forall batch, embed_documents batch = Ok (map f batch)) ->
  batch_process_embeddings texts embed_documents batch_size = Ok (map f texts).
Proof.
  intros Hb He. unfold batch_process_embeddings.
  destruct (Z.eqb_spec batch_size 0) as [Hz | _]; [lia|].
  destruct (Z.ltb_spec batch_size 0) as [Hn | _]; [lia|].
  unfold range_step.
  rewrite (batch_loop_pointwise f embed_documents _ He). simpl.
  do 2 f_equal. apply firstn_all2.
  apply range_step_covers. lia.
Qed.

Lemma batch_loop_limited (embed_documents : list string -> outcome (list V))
      (batch_size : Z) (starts : list nat) (embeddings : list V) :
  (0 < batch_size)%Z ->
  Forall (fun i => (i < List.length texts)%nat) starts ->
  batch_loop texts (batch_limited batch_size embed_documents)
    (Z.to_nat batch_size) starts embeddings =
  batch_loop texts embed_documents (Z.to_nat batch_size) starts embeddings.
Proof.
  intros Hb Hs. revert embeddings.
  induction Hs as [|i starts Hi _ IH]; intros embeddings; [reflexivity|].
  cbn [batch_loop].
  assert (Hok : batch_limited batch_size embed_documents
                  (firstn (Z.to_nat batch_size) (skipn i texts)) =
                embed_documents (firstn (Z.to_nat batch_size) (skipn i texts))).
  { unfold batch_limited. rewrite length_firstn, length_skipn.
    destruct (Nat.leb_spec 1 (Nat.min (Z.to_nat batch_size) (List.length texts - i)));
      [|lia].
    destruct (Z.leb_spec
                (Z.of_nat (Nat.min (Z.to_nat batch_size) (List.length texts - i)))
                batch_size); [reflexivity | lia]. }
  rewrite Hok.
  destruct (embed_documents _); simpl; [apply IH | reflexivity].
Qed.

(** The embedder is never given an empty batch nor more than [batch_size]
    texts at a time: an embedder that refuses such batches gives the same
    result. *)
Theorem batch_process_embeddings_sizes
        (embed_documents : list string -> outcome (list V)) (batch_size : Z) :
  (0 < batch_size)%Z ->
  batch_process_embeddings texts (batch_limited batch_size embed_documents)
    batch_size =
  batch_process_embeddings texts embed_documents batch_size.
Proof.
  intros Hb. unfold batch_process_embeddings.
  destruct (Z.eqb_spec batch_size 0) as [Hz | _]; [lia|].
  destruct (Z.ltb_spec batch_size 0) as [Hn | _]; [lia|].
  apply batch_loop_limited; [exact Hb|].
  apply Forall_forall. intros i Hi.
  apply (range_step_below (List.length texts) (Z.to_nat batch_size)); [lia | exact Hi].
Qed.

End BatchFacts.

Section EmbeddingInstances.

Import JDMatcher Embeddings.

Lemma normalize_vector_unit_witness :
  norm (normalize_vector [3; 4]%R) = 1%R.
Proof.
  apply (normalize_vector_unit [3; 4]%R). rewrite norm_3_4. lra.
Defined.

Lemma batch_process_embeddings_pointwise_witness :
  batch_process_embeddings ["a"; "bb"; "ccc"; "dd"; "e"] embed_lengths 2 =
  Ok [1; 2; 3; 2; 1]%nat.
Proof.
  apply (batch_process_embeddings_pointwise
           ["a"; "bb"; "ccc"; "dd"; "e"] String.length embed_lengths 2).
  - reflexivity.
  - intros batch. reflexivity.
Defined.

Lemma batch_process_embeddings_sizes_witness :
  batch_process_embeddings ["a"; "bb"; "ccc"; "dd"; "e"]
    (batch_limited 2 embed_lengths) 2 =
  batch_process_embeddings ["a"; "bb"; "ccc"; "dd"; "e"] embed_lengths 2.
Proof.
  apply (batch_process_embeddings_sizes
           ["a"; "bb"; "ccc"; "dd"; "e"] embed_lengths 2).
  reflexivity.
Defined.

End EmbeddingInstances.

(** ** More on the ranking *)

Section RankingMore.

Import RankingEngine.
Local Open Scope Q_scope.

Variable matcher : jd_matcher.
Variable job_description : string.
Variable sort_with_nan : forall l : list ranked_resume, arrangement l.

Lemma round_half_even_range (lo hi : Z) (x : Q) :
  inject_Z lo <= x <= inject_Z hi ->
  (lo <= round_half_even x <= hi)%Z.
Proof.
  intros [Hlo Hhi]. unfold round_half_even.
  pose proof (Qfloor_le x) as Hf. pose proof (Qlt_floor x) as Hc.
  assert (H1 : (lo <= Qfloor x)%Z).
  { assert (H : inject_Z lo < inject_Z (Qfloor x + 1))
      by (eapply Qle_lt_trans; eassumption).
    rewrite <- Zlt_Qlt in H. lia. }
  assert (H2 : (Qfloor x <= hi)%Z).
  { rewrite Zle_Qle. eapply Qle_trans; eassumption. }
  assert (Hup : inject_Z (Qfloor x) < x -> (Qfloor x + 1 <= hi)%Z).
  { intros H. assert (H' : inject_Z (Qfloor x) < inject_Z hi)
      by (eapply Qlt_le_trans; eassumption).
    rewrite <- Zlt_Qlt in H'. lia. }
  destruct (Qcompare (x - inject_Z (Qfloor x)) (1 # 2)) eqn:E.
  - apply Qeq_alt in E.
    destruct (Z.even (Qfloor x)); [lia|].
    split; [lia|]. apply Hup.
    generalize dependent (inject_Z (Qfloor x)). intros; lra.
  - lia.
  - apply Qgt_alt in E. split; [lia|]. apply Hup.
    generalize dependent (inject_Z (Qfloor x)). intros; lra.
Qed.

Lemma round2_range (x : Q) : 0 <= x <= 100 -> 0 <= round2 x <= 100.
Proof.
  intros Hx. unfold round2.
  assert (H : (0 <= round_half_even (x * 100) <= 10000)%Z).
  { apply round_half_even_range.
    change (inject_Z 0) with 0. change (inject_Z 10000) with 10000. lra. }
  destruct H as [H1 H2]. rewrite Zle_Qle in H1, H2.
  generalize dependent (inject_Z (round_half_even (x * 100))).
  intros q H1 H2.
  change (inject_Z 0) with 0 in H1. change (inject_Z 10000) with 10000 in H2.
  split.
  - apply Qle_shift_div_l; lra.
  - apply Qle_shift_div_r; lra.
Qed.

(** The final score of an entry is between 0 and 100 when the score of
    the analysis is, and the similarity is between 0 and 1 (0 and 100 as
    recorded in the entry). *)
Theorem entry_final_score_range (resume : resume) (entry : ranked_resume) :
  rank_one matcher job_description resume = Ok entry ->
  (0 <= llm_score (factors entry) <= 100)%Z ->
  fle (Num 0) (embedding_similarity (factors entry)) = true /\
  fle (embedding_similarity (factors entry)) (Num 100) = true ->
  fle (Num 0) (final_score entry) = true /\
  fle (final_score entry) (Num 100) = true.
Proof.
  unfold rank_one, final_score_call.
  destruct (calculate_similarity matcher _) as [sim|x]; simpl; [|discriminate].
  destruct (analyze_fit matcher _ _) as [an|x]; simpl; [|discriminate].
  destruct (float_of_int (JDMatcher.score an)) as [llm|x] eqn:Ef; simpl;
    [|discriminate].
  intros H. injection H as <-. cbn [factors llm_score embedding_similarity final_score].
  intros [Hl1 Hl2] [Hs1 Hs2].
  destruct sim as [s|negative|]; simpl in Hs1, Hs2;
    [|destruct negative; discriminate|discriminate].
  apply Qle_bool_iff in Hs1, Hs2.
  unfold float_of_int in Ef.
  destruct (Z.abs (JDMatcher.score an) <? 2 ^ 1024 - 2 ^ 970)%Z; [|discriminate].
  injection Ef as <-.
  rewrite Zle_Qle in Hl1, Hl2.
  cbn [round_2 fle]. rewrite !Qle_bool_iff.
  apply round2_range.
  pose proof (normalized_skills_range
                (Z.of_nat (List.length
                   (ResumeProcessor.skills (processed_data resume))))
                (Zle_0_nat _)) as Hn.
  unfold _calculate_final_score, weight_llm_score, weight_similarity, weight_skills.
  set (n := Qmin _ 1 * 100) in *.
  set (c := s * 100) in *.
  generalize dependent (inject_Z (JDMatcher.score an)). intros l Hl1 Hl2.
  change (inject_Z 0) with 0 in Hl1. change (inject_Z 100) with 100 in Hl2.
  setoid_replace (0.3 * s * 100) with (0.3 * c) by (unfold c; ring).
  split; lra.
Qed.

Lemma traverse_perm {A B : Type} (f : A -> outcome B) (l l' : list A) :
  Permutation l l' ->
  forall ys, traverse f l = Ok ys ->
  exists ys', traverse f l' = Ok ys' /\ Permutation ys ys'.
Proof.
  induction 1 as [|x l l' _ IH|x y l|l l' l'' _ IH1 _ IH2]; intros ys; simpl.
  - intros H. injection H as <-. eauto.
  - destruct (f x) as [b|e]; simpl; [|discriminate].
    destruct (traverse f l) as [bs|e]; simpl; [|discriminate].
    intros H. injection H as <-.
    destruct (IH bs eq_refl) as (bs' & -> & Hp). simpl. eauto.
  - destruct (f y) as [b|e]; simpl; [|discriminate].
    destruct (f x) as [c|e]; simpl; [|discriminate].
    destruct (traverse f l) as [bs|e]; simpl; [|discriminate].
    intros H. injection H as <-. eexists. split; [reflexivity|]. apply perm_swap.
  - intros H. destruct (IH1 ys H) as (ys' & H' & Hp).
    destruct (IH2 ys' H') as (ys'' & H'' & Hp').
    exists ys''. split; [exact H''|]. now transitivity ys'.
Qed.

(** The ranking of the same resumes given in another order has the same
    entries: an entry does not depend on the other resumes, and only the
    places of entries can differ. *)
Theorem rank_resumes_any_order (resumes resumes' : list resume)
        (ranked : list ranked_resume) :
  Permutation resumes resumes' ->
  rank_resumes matcher job_description sort_with_nan resumes = Ok ranked ->
  exists ranked',
    rank_resumes matcher job_description sort_with_nan resumes' = Ok ranked' /\
    Permutation ranked ranked'.
Proof.
  intros Hp. rewrite !rank_resumes_traverse.
  destruct (traverse (rank_one matcher job_description) resumes) as [es|x] eqn:E;
    simpl; [|discriminate].
  intros H. injection H as <-.
  destruct (traverse_perm _ _ _ Hp es E) as (es' & -> & Hes). simpl.
  eexists. split; [reflexivity|].
  rewrite !list_sort_reverse_perm. exact Hes.
Qed.

End RankingMore.

Section RankingMoreInstances.

Import RankingEngine Examples.

Lemma entry_final_score_range_witness :
  exists entry,
    rank_one (matcher_with steady_llm) job beta = Ok entry /\
    fle (Num 0) (final_score entry) = true /\
    fle (final_score entry) (Num 100) = true.
Proof.
  eexists. split; [reflexivity|].
  apply (entry_final_score_range (matcher_with steady_llm) job beta).
  - reflexivity.
  - split; discriminate.
  - split; reflexivity.
Defined.

Lemma rank_resumes_any_order_witness :
  exists ranked ranked',
    rank_resumes (matcher_with steady_llm) job as_it_is [alpha; beta; gamma] =
      Ok ranked /\
    rank_resumes (matcher_with steady_llm) job as_it_is [gamma; beta; alpha] =
      Ok ranked' /\
    Permutation ranked ranked'.
Proof.
  eexists.
  destruct (rank_resumes_any_order (matcher_with steady_llm) job as_it_is
              [alpha; beta; gamma] [gamma; beta; alpha] _
              (Permutation_rev [alpha; beta; gamma]) eq_refl)
    as (ranked' & H & Hp).
  exists ranked'. split; [reflexivity|]. split; assumption.
Defined.

End RankingMoreInstances.

(** ** The handlers of the API *)

Section ApiFacts.

Import ResumeProcessor RankingEngine Api.

Variable fs : file_system.
Variable tmp_path : upload -> string.
Variable sort_with_nan : forall l : list ranked_resume, arrangement l.

Lemma extract_text_supported (path text : string) :
  extract_text fs path = Ok text ->
  existsb (String.eqb (PyStr.lower (snd (PyOs.splitext path))))
    FileParser.get_supported_formats = true.
Proof.
  unfold extract_text, FileParser.get_supported_formats. cbn [existsb].
  set (ext := PyStr.lower (snd (PyOs.splitext path))).
  destruct (String.eqb ext ".pdf"); [reflexivity|].
  destruct (String.eqb ext ".docx"); [reflexivity|].
  destruct (String.eqb ext ".txt"); [reflexivity|].
  discriminate.
Qed.

Lemma process_files_from (files : list upload) (acc : list resume)
      (P : resume -> Prop) :
  Forall P acc ->
  (forall file text,
      In file files -> extract_text fs (tmp_path file) = Ok text ->
      P {| filename := upload_filename file;
           resume_raw_text := text;
           processed_data := parse_resume text;
           file_size := Z.of_nat (String.length (upload_content file)) |}) ->
  Forall P (process_files fs tmp_path files acc).
Proof.
  revert acc. induction files as [|file files IH]; intros acc Hacc Hstep.
  - exact Hacc.
  - cbn [process_files].
    destruct (extract_text fs (tmp_path file)) as [text|x] eqn:E.
    + apply IH.
      * apply Forall_app. split; [exact Hacc|].
        constructor; [|constructor]. apply Hstep; [now left | exact E].
      * intros f t Hf. apply Hstep. now right.
    + apply IH; [exact Hacc|].
      intros f t Hf. apply Hstep. now right.
Qed.

(** Every resume that reaches the ranking comes from an upload whose name
    has a supported extension and whose text was extracted; its data is the
    parse of that text. An upload of another format is left out. *)
Theorem processed_files_are_supported (files : list upload) :
  Forall (keeps_extension tmp_path) files ->
  Forall
    (fun resume =>
       FileParser.validate_file_format (filename resume) = true /\
       processed_data resume = parse_resume (resume_raw_text resume) /\
       exists file,
         In file files /\ filename resume = upload_filename file /\
         extract_text fs (tmp_path file) = Ok (resume_raw_text resume))
    (process_files fs tmp_path files []).
Proof.
  intros Hk. apply process_files_from; [constructor|].
  intros file text Hin E. cbn [filename processed_data resume_raw_text].
  split; [|split; [reflexivity | eauto]].
  unfold FileParser.validate_file_format.
  rewrite Forall_forall in Hk. rewrite <- (Hk file Hin).
  exact (extract_text_supported _ _ E).
Qed.



(** [process_resumes] answers 400 exactly when no matcher or no job
    description is set. *)
Theorem process_resumes_400 (st : api_state) (files : list upload) :
  (exists detail,
      process_resumes fs tmp_path sort_with_nan st files =
      HTTPException 400 detail) <->
  jd_matcher st = None \/ current_jd st = EmptyString.
Proof.
  unfold process_resumes. split.
  - intros [detail H].
    destruct (jd_matcher st); [right | now left].
    destruct (String.eqb_spec (current_jd st) ""); [assumption|].
    destruct (process_resumes_try _ _ _ _ _); discriminate.
  - intros [-> | H]; [eauto|].
    destruct (jd_matcher st); [|eauto].
    rewrite H. simpl. eauto.
Qed.

End ApiFacts.

Section ApiStateFacts.

Import RankingEngine Api.

(** A [try] followed by [except Exception] never lets a 400 out: what the
    body raises, an [HTTPException] too, is answered 500. *)
Lemma except_exception_500 {A : Type} (prefix : string) (body : attempt A)
      (status_code : Z) (detail : string) :
  except_exception prefix body = HTTPException status_code detail ->
  status_code = 500%Z.
Proof.
  destruct body; simpl; [discriminate|]. intros H. now injection H.
Qed.

(** [set_job_description] never answers 400: the 400 it raises for a
    request without a text is raised inside the [try], caught by its
    [except] and answered 500, the state being as it was; a text is
    answered with a response exactly when the matcher is constructed and
    the embedding created. *)
Theorem set_job_description_answers
        (new_matcher : outcome RankingEngine.jd_matcher)
        (create_jd_embedding :
           RankingEngine.jd_matcher -> string -> outcome RankingEngine.jd_matcher)
        (st : api_state) (text : option string) :
  (forall detail,
      snd (set_job_description new_matcher create_jd_embedding st text) <>
      HTTPException 400 detail) /\
  ((text = None \/ text = Some EmptyString) ->
   set_job_description_try new_matcher create_jd_embedding st text =
     (st, Raises (RaisedHTTP 400 "Job description text is required")) /\
   set_job_description new_matcher create_jd_embedding st text =
     (st, HTTPException 500
            "Error setting job description: 400: Job description text is required")) /\
  ((exists body,
       snd (set_job_description new_matcher create_jd_embedding st text) =
       Response body) <->
   (exists t m m',
       text = Some t /\ t <> EmptyString /\ new_matcher = Ok m /\
       create_jd_embedding m t = Ok m')).
Proof.
  split; [|split; [|split]].
  - intros detail H. unfold set_job_description in H. cbn [snd] in H.
    apply except_exception_500 in H. discriminate.
  - intros [-> | ->]; split; reflexivity.
  - unfold set_job_description, set_job_description_try. cbn [snd].
    intros [body H].
    destruct text as [t|]; [|discriminate].
    destruct (String.eqb_spec t "") as [-> | Hne]; [discriminate|].
    destruct new_matcher as [m|e]; [|discriminate].
    destruct (create_jd_embedding m t) as [m'|e] eqn:E; [|discriminate].
    exists t, m, m'. auto.
  - intros (t & m & m' & -> & Ht & -> & Hc).
    unfold set_job_description, set_job_description_try. cbn [snd].
    apply String.eqb_neq in Ht. rewrite Ht, Hc. simpl. eauto.
Qed.

Lemma set_job_description_keeps (new_matcher : outcome RankingEngine.jd_matcher)
      (create_jd_embedding :
         RankingEngine.jd_matcher -> string -> outcome RankingEngine.jd_matcher)
      (st : api_state) (text : option string) :
  (ranking_engine st <> None ->
   jd_matcher st <> None /\ current_jd st <> EmptyString) ->
  ranking_engine
    (fst (set_job_description new_matcher create_jd_embedding st text)) <> None ->
  jd_matcher
    (fst (set_job_description new_matcher create_jd_embedding st text)) <> None /\
  current_jd
    (fst (set_job_description new_matcher create_jd_embedding st text)) <> EmptyString.
Proof.
  intros Hinv. unfold set_job_description, set_job_description_try. cbn [fst].
  destruct (String.eqb_spec (match text with Some t => t | None => "" end) "")
    as [Ht | Ht]; [exact Hinv|].
  destruct new_matcher as [m|e].
  - destruct (create_jd_embedding m _) as [m'|e]; simpl; intros H;
      (split; [discriminate | exact Ht]).
  - simpl. intros H. destruct (Hinv H) as [Hm _]. split; [exact Hm | exact Ht].
Qed.

(** Once a ranking engine exists, a matcher and a job description are set,
    after any further requests, failed ones too: [process_resumes] then
    never answers 400. *)
Theorem reachable_engine_has_job (st : api_state) :
  reachable st ->
  ranking_engine st <> None ->
  jd_matcher st <> None /\ current_jd st <> EmptyString /\
  forall fs tmp_path sort_with_nan files detail,
    process_resumes fs tmp_path sort_with_nan st files <> HTTPException 400 detail.
Proof.
  intros Hr He.
  assert (H : jd_matcher st <> None /\ current_jd st <> EmptyString).
  { revert He. induction Hr as [|st nm cr text _ IH].
    - intros H. now elim H.
    - now apply set_job_description_keeps. }
  destruct H as [Hm Hjd]. split; [exact Hm|]. split; [exact Hjd|].
  intros fs tmp_path sort_with_nan files detail. unfold process_resumes.
  destruct (jd_matcher st); [|contradiction].
  apply String.eqb_neq in Hjd. rewrite Hjd.
  intros H. apply except_exception_500 in H. discriminate.
Qed.

End ApiStateFacts.

Section ApiInstances.

Import ResumeProcessor RankingEngine Api Examples.

Lemma docx_text_splits_back_witness :
  exists text,
    _extract_from_docx two_files "jane.docx" = Ok text /\
    PyStr.split_lines text = ["Jane Doe"; "Python developer"] ++ [EmptyString].
Proof.
  apply (docx_text_splits_back two_files "jane.docx"
           ["Jane Doe"; "Python developer"]).
  - reflexivity.
  - repeat constructor.
Defined.

Lemma uploads_keep_extension : Forall (keeps_extension tmp_copy) uploads.
Proof. repeat constructor. Qed.

Lemma processed_files_are_supported_witness :
  Forall
    (fun resume =>
       FileParser.validate_file_format (filename resume) = true /\
       processed_data resume = parse_resume (resume_raw_text resume) /\
       exists file,
         In file uploads /\ filename resume = upload_filename file /\
         extract_text two_files (tmp_copy file) = Ok (resume_raw_text resume))
    (process_files two_files tmp_copy uploads []).
Proof.
  exact (processed_files_are_supported two_files tmp_copy uploads
           uploads_keep_extension).
Defined.

(** Of the four uploads, the unsupported one and the unreadable PDF are
    passed over. *)
Example processed_uploads :
  map filename (process_files two_files tmp_copy uploads []) =
  ["jane.DOCX"; "joe.txt"].
Proof. vm_compute. reflexivity. Qed.



Lemma reachable_engine_has_job_witness :
  jd_matcher ready_state <> None /\ current_jd ready_state <> EmptyString /\
  forall fs tmp_path sort_with_nan files detail,
    process_resumes fs tmp_path sort_with_nan ready_state files <>
    HTTPException 400 detail.
Proof.
  apply (reachable_engine_has_job ready_state).
  - exact (reachable_set initial_state (Ok (matcher_with steady_llm))
             (fun m _ => Ok m) (Some job) reachable_initial).
  - discriminate.
Defined.

End ApiInstances.
